(** * The OpenID provider core [openid.server.impl.OpenIDServerImpl]

    A shallow embedding of [src/openid/server/impl.py] (Python 2) and the
    properties of its two entry points, [processGet] (interactive
    authentication requests) and [processPost] (back-channel requests:
    [associate] and [check_authentication]).

    Python dictionaries are finite maps [gmap string _]; the two association
    stores held by the server object are mutable objects, so every method is a
    computation in a state-and-exception monad over a [state] that carries both
    stores, the sequence of store operations performed so far and what has
    been printed on standard output. *)

From Stdlib Require Import ZArith Ascii String.
From stdpp Require Import base strings pretty gmap list fin_maps.

Local Open Scope Z_scope.
Local Open Scope string_scope.

(** ** Python values and string methods *)

(** The values stored in the reply dictionaries: every field is a [str]
    except [expires_in], which [_associate] stores as an integer. *)
Inductive pyval :=
| VStr (s : string)
| VInt (z : Z).

#[global] Instance pyval_eq_dec : EqDecision pyval.
Proof. solve_decision. Defined.

(** Truth value of [x] in [if x:] where [x] is [None] or a [str]. *)
Definition truthy (x : option string) : bool :=
  match x with
  | Some s => negb (bool_decide (s = ""))
  | None => false
  end.

Arguments truthy : simpl never.

(** [%s] applied to [None] or a [str]. *)
Definition str_of (x : option string) : string := default "None" x.

(** The characters removed by [str.strip()]: space, \t, \n, \v, \f, \r. *)
Definition is_space (a : ascii) : bool :=
  let n := nat_of_ascii a in
  (Nat.eqb n 32 || (Nat.leb 9 n && Nat.leb n 13))%bool.

Fixpoint lstrip (s : string) : string :=
  match s with
  | EmptyString => EmptyString
  | String a s' => if is_space a then lstrip s' else s
  end.

Fixpoint rstrip (s : string) : string :=
  match s with
  | EmptyString => EmptyString
  | String a s' =>
      match rstrip s' with
      | EmptyString => if is_space a then EmptyString else String a EmptyString
      | r => String a r
      end
  end.

(** [s.strip()] *)
Definition strip (s : string) : string := rstrip (lstrip s).

(** [s.split(sep)] for a one-character separator: never the empty list. *)
Fixpoint split (sep : ascii) (s : string) : list string :=
  match s with
  | EmptyString => [EmptyString]
  | String a s' =>
      if bool_decide (a = sep) then EmptyString :: split sep s'
      else match split sep s' with
           | x :: xs => String a x :: xs
           | [] => [String a EmptyString]
           end
  end.

Definition comma : ascii := ","%char.

(** ** Exceptions and the four outcomes *)

Inductive exn :=
| KeyError (key : string)
| UnboundLocalError (name : string)
| AttributeError (attr : string)
| ValueError (msg : string).

Inductive result (A : Type) :=
| Ret (a : A)
| Raise (e : exn).
Arguments Ret {A} a.
Arguments Raise {A} e.

(** The tuples [(interface.REDIRECT, url)], [(interface.DO_AUTH, (ret, can))],
    [(interface.OK, body)] and [(interface.ERROR, msg)]. *)
Inductive outcome :=
| REDIRECT (target : string)
| DO_AUTH (ret_url can_url : string)
| OK (body : string)
| ERROR (msg : string).

(** ** Associations and the two stores *)

Record Association := mkAssociation {
  handle : string;
  secret : string;
  assoc_type : string;
  expiresIn : Z
}.

Record entry := mkEntry {
  e_secret : string;
  e_type : string;
  e_expires : Z
}.

Inductive store_id := Internal | External.

Inductive store_op :=
| OpGet (w : store_id) (ty : string)
| OpLookup (w : store_id) (h ty : string)
| OpRemove (w : store_id) (h : string).

(** Modelled from the spec: the store classes behind [self.istore] and
    [self.estore] are not among the sources. A store keeps one entry per
    handle; [lookup(handle, type)] reads without changing the store and finds
    nothing under another type; [remove(handle)] deletes and is silent when
    the handle is absent; [get(type)] issues an association and persists it,
    or yields [None] for an unsupported type. Which handle and secret a store
    issues is left to [fresh]. *)
Class StoreBackend := {
  fresh : store_id -> gmap string entry -> string -> option Association
}.

Definition entry_of (a : Association) : entry :=
  mkEntry (secret a) (assoc_type a) (expiresIn a).

Definition lookup_assoc (h ty : string) (m : gmap string entry)
  : option Association :=
  match m !! h with
  | Some e =>
      if bool_decide (e_type e = ty)
      then Some (mkAssociation h (e_secret e) (e_type e) (e_expires e))
      else None
  | None => None
  end.

Record state := mkState {
  istore : gmap string entry;
  estore : gmap string entry;
  trace : list store_op;
  stdout : list (gmap string pyval * string)
}.

Definition store_of (w : store_id) (st : state) : gmap string entry :=
  match w with Internal => istore st | External => estore st end.

Definition with_store (w : store_id) (m : gmap string entry) (st : state)
  : state :=
  match w with
  | Internal => mkState m (estore st) (trace st) (stdout st)
  | External => mkState (istore st) m (trace st) (stdout st)
  end.

Definition log (o : store_op) (st : state) : state :=
  mkState (istore st) (estore st) (trace st ++ [o]) (stdout st).

(** ** The monad of methods: state of the server object, plus exceptions *)

Definition M (A : Type) : Type := state -> result A * state.

Definition ret {A} (a : A) : M A := fun st => (Ret a, st).

Definition raise {A} (e : exn) : M A := fun st => (Raise e, st).

Definition bind {A B} (c : M A) (k : A -> M B) : M B :=
  fun st =>
    match c st with
    | (Ret a, st') => k a st'
    | (Raise e, st') => (Raise e, st')
    end.

Notation "'let!' x ':=' c1 'in' c2" := (bind c1 (fun x => c2))
  (at level 10, x pattern, c1 at level 100, c2 at level 200).
Notation "c1 ;; c2" := (bind c1 (fun _ => c2))
  (at level 100, c2 at level 200, right associativity).

(** A pure call that may raise. *)
Definition lift {A} (r : result A) : M A := fun st => (r, st).

(** [d[k]] *)
Definition getitem (d : gmap string string) (k : string) : M string :=
  match d !! k with
  | Some v => ret v
  | None => raise (KeyError k)
  end.

(** Reading a local variable that may not have been assigned. *)
Definition local {A} (name : string) (v : option A) : M A :=
  match v with
  | Some x => ret x
  | None => raise (UnboundLocalError name)
  end.

(** [print (reply, mac_key)] *)
Definition print (x : gmap string pyval * string) : M unit :=
  fun st => (Ret tt, mkState (istore st) (estore st) (trace st) (stdout st ++ [x])).

Section Store.
Context `{StoreBackend}.

Definition store_get (w : store_id) (ty : string) : M (option Association) :=
  fun st =>
    let st1 := log (OpGet w ty) st in
    match fresh w (store_of w st) ty with
    | Some a =>
        (Ret (Some a),
         with_store w (<[handle a := entry_of a]> (store_of w st)) st1)
    | None => (Ret None, st1)
    end.

Definition store_lookup (w : store_id) (h ty : string)
  : M (option Association) :=
  fun st => (Ret (lookup_assoc h ty (store_of w st)), log (OpLookup w h ty) st).

Definition store_remove (w : store_id) (h : string) : M unit :=
  fun st =>
    (Ret tt, with_store w (delete h (store_of w st)) (log (OpRemove w h) st)).
End Store.

(** ** The modules the server imports

    [openid.server.trustroot], [openid.oidutil] and [openid.cryptutil] are
    used through the functions below; the server depends on nothing else of
    them, so they are interfaces here. [signReply] may raise (it reads the
    fields it signs from the dictionary it is given). *)

Class trustroot := {
  TrustRoot : Type;
  TrustRoot_parse : option string -> option TrustRoot;
  validateURL : TrustRoot -> string -> bool
}.

Class oidutil := {
  appendArgs : string -> gmap string string -> string;
  dictToKV : gmap string pyval -> string;
  toBase64 : string -> string
}.

Class cryptutil := {
  signReply : gmap string string -> string -> list string
              -> result (string * string);
  base64ToLong : string -> Z;
  longToBase64 : Z -> string;
  longToBinary : Z -> string;
  sha1 : string -> string;
  strxor : string -> string -> string
}.

(** The builtin [repr] on [str] (the [%r] of the error messages), and the
    source of randomness from which a key exchange draws its private
    exponent, given the modulus. *)
Class builtins := {
  repr : string -> string;
  randrange : Z -> Z
}.

(** [%r] applied to [None] or a [str]. *)
Definition repr_of `{builtins} (x : option string) : string :=
  match x with
  | Some s => repr s
  | None => "None"
  end.

(** ** Diffie-Hellman key exchange *)

Record DiffieHellman := mkDiffieHellman {
  dh_p : Z;
  dh_g : Z;
  dh_x : Z
}.

(** Modelled from the spec: [openid.dh.DiffieHellman] is not among the
    sources. A session is built from the supplied modulus and generator and
    holds a private exponent; it derives its own public value, and combines
    the peer's public value into the shared secret by modular
    exponentiation. *)
Definition fromBase64 `{cryptutil} `{builtins} (p g : string) : DiffieHellman :=
  mkDiffieHellman (base64ToLong p) (base64ToLong g) (randrange (base64ToLong p)).

Definition createKeyExchange (dh : DiffieHellman) : Z :=
  (dh_g dh ^ dh_x dh) mod dh_p dh.

(** The peer public values that fix or leak the shared secret: 0, 1 and
    p-1. *)
Definition degenerate (p keyEx : Z) : bool :=
  (bool_decide (keyEx = 0) || bool_decide (keyEx = 1)
   || bool_decide (keyEx = p - 1))%bool.

(** Modelled from the spec: the derivation of the shared secret from the
    peer's public value is modular exponentiation and must reject a peer
    public value of 0, 1 or p-1. The rejection is an exception, as is the
    absence of a power modulo 0 ([pow] raises [ValueError] there). *)
Definition decryptKeyExchange (dh : DiffieHellman) (keyEx : Z) : result Z :=
  if degenerate (dh_p dh) keyEx
  then Raise (ValueError "degenerate public value")
  else if bool_decide (dh_p dh = 0)
  then Raise (ValueError "pow() 3rd argument cannot be 0")
  else Ret ((keyEx ^ dh_x dh) mod dh_p dh).

(** ** The server *)

Definition _signed_fields : list string := ["mode"; "identity"; "return_to"].

Section OpenIDServerImpl.
Context `{StoreBackend} `{trustroot} `{oidutil} `{cryptutil} `{builtins}.

(** [self.url]; [self.istore] and [self.estore] are the stores of the
    [state]. *)
Variable url : string.

Definition getAuthData (args : gmap string string)
  : option string * option string :=
  let trust_root := args !! "openid.trust_root" in
  let identity := args !! "openid.identity" in
  (identity, trust_root).

Definition _getErr (args : gmap string string) (msg : string) : outcome :=
  match args !! "openid.return_to" with
  | Some return_to =>
      if truthy (Some return_to)
      then REDIRECT (appendArgs return_to
             (<["openid.mode" := "error"]> {["openid.error" := msg]}))
      else ERROR msg
  | None => ERROR msg
  end.

Definition _postErr (msg : string) : outcome :=
  ERROR (dictToKV {["error" := VStr msg]}).

(** [assoc is None] and [assoc.expiresIn <= 0] *)
Definition is_none (assoc : option Association) : bool :=
  match assoc with None => true | Some _ => false end.

Definition expired (assoc : option Association) : bool :=
  match assoc with
  | Some a => bool_decide (expiresIn a <= 0)
  | None => false
  end.

(** The association the authorized branch signs with, and the reply
    extended with [openid.invalidate_handle] when the consumer's handle
    could not be used. *)
Definition resolve_assoc (assoc_handle : option string)
    (reply : gmap string string)
  : M (option Association * gmap string string) :=
  match assoc_handle with
  | Some h =>
      if truthy (Some h) then
        let! assoc := store_lookup External h "HMAC-SHA1" in
        if (is_none assoc || expired assoc)%bool then
          (match assoc with
           | Some a =>
               if bool_decide (expiresIn a <= 0)
               then store_remove External (handle a)
               else ret tt
           | None => ret tt
           end) ;;
          let! assoc := store_get Internal "HMAC-SHA1" in
          ret (assoc, <["openid.invalidate_handle" := h]> reply)
        else ret (assoc, reply)
      else
        let! assoc := store_get Internal "HMAC-SHA1" in
        ret (assoc, reply)
  | None =>
      let! assoc := store_get Internal "HMAC-SHA1" in
      ret (assoc, reply)
  end.

Definition processGet (authorized : bool) (args : gmap string string)
  : M outcome :=
  match args !! "openid.identity" with
  | None => ret (_getErr args "No identity specified")
  | Some identity =>
  let trust_root := args !! "openid.trust_root" in
  match TrustRoot_parse trust_root with
  | None =>
      ret (_getErr args ("Malformed trust_root: " +:+ str_of trust_root))
  | Some tr =>
  match args !! "openid.return_to" with
  | None => ret (_getErr args "No return_to URL specified")
  | Some return_to =>
  if negb (validateURL tr return_to) then
    ret (_getErr args
           ("return_to(" +:+ return_to +:+ ") not valid against trust_root("
            +:+ str_of trust_root +:+ ")"))
  else
  let assoc_handle := args !! "openid.assoc_handle" in
  let mode := args !! "openid.mode" in
  if negb authorized then
    if bool_decide (mode = Some "checkid_immediate") then
      let nargs := <["openid.mode" := "checkid_setup"]> args in
      ret (REDIRECT (appendArgs url nargs))
    else if bool_decide (mode = Some "checkid_setup") then
      let ret_url := appendArgs url args in
      let can := appendArgs return_to {["openid.mode" := "cancel"]} in
      ret (DO_AUTH ret_url can)
    else
      ret (_getErr args
             ("open.mode (" +:+ repr_of mode +:+ ") not understood"))
  else
  let reply : gmap string string :=
    <["openid.mode" := "id_res"]>
      (<["openid.return_to" := return_to]>
         {["openid.identity" := identity]}) in
  let! (assoc, reply) := resolve_assoc assoc_handle reply in
  match assoc with
  | None => raise (AttributeError "handle")
  | Some assoc =>
  let reply := <["openid.assoc_handle" := handle assoc]> reply in
  let! (signed, sig) := lift (signReply reply (secret assoc) _signed_fields) in
  let reply := <["openid.signed" := signed]> (<["openid.sig" := sig]> reply) in
  ret (REDIRECT (appendArgs return_to reply))
  end end end end.

(** The DH-SHA1 branch of [_associate]: the reply fields it adds and the
    local [mac_key] it assigns. *)
Definition associate_dh (args : gmap string string) (assoc : Association)
    (session_type : string) (reply : gmap string pyval)
  : M (gmap string pyval * string) :=
  let! p := getitem args "openid.dh_modulus" in
  let! g := getitem args "openid.dh_gen" in
  let! consumer_public := getitem args "openid.dh_consumer_public" in
  let dh := fromBase64 p g in
  let cpub := base64ToLong consumer_public in
  let! dh_shared := lift (decryptKeyExchange dh cpub) in
  let mac_key := strxor (secret assoc) (sha1 (longToBinary dh_shared)) in
  let spub := createKeyExchange dh in
  ret (<["session_type" := VStr session_type]>
         (<["dh_server_public" := VStr (longToBase64 spub)]>
            (<["enc_mac_key" := VStr (toBase64 mac_key)]> reply)),
       mac_key).

Definition _associate (args : gmap string string) : M outcome :=
  let assoc_type := default "HMAC-SHA1" (args !! "openid.assoc_type") in
  let! assoc := store_get External assoc_type in
  match assoc with
  | None =>
      ret (_postErr ("unable to create an association for type "
                     +:+ repr assoc_type))
  | Some assoc =>
  let reply : gmap string pyval :=
    <["assoc_type" := VStr "HMAC-SHA1"]>
      (<["assoc_handle" := VStr (handle assoc)]>
         {["expires_in" := VInt (expiresIn assoc)]}) in
  let session_type := args !! "openid.session_type" in
  let finish (reply : gmap string pyval) (mac_key : option string) :=
    let! shown := local "mac_key" mac_key in
    print (reply, shown) ;;
    ret (OK (dictToKV reply)) in
  match session_type with
  | Some st =>
      if truthy (Some st) then
        if bool_decide (st = "DH-SHA1") then
          let! (reply, mac_key) := associate_dh args assoc st reply in
          finish reply (Some mac_key)
        else ret (_postErr "session_type must be DH-SHA1")
      else finish (<["mac_key" := VStr (toBase64 (secret assoc))]> reply) None
  | None => finish (<["mac_key" := VStr (toBase64 (secret assoc))]> reply) None
  end
  end.

(** [args['openid.signed'].strip().split(',')] *)
Definition signed_fields_of (signed : string) : list string :=
  split comma (strip signed).

Definition _checkAuth (args : gmap string string) : M outcome :=
  let! h := getitem args "openid.assoc_handle" in
  let! assoc := store_lookup Internal h "HMAC-SHA1" in
  match assoc with
  | None =>
      let! h := getitem args "openid.assoc_handle" in
      ret (_postErr ("no secret found for " +:+ repr h))
  | Some assoc =>
  let reply : gmap string pyval := ∅ in
  let! (reply, is_valid) :=
    (if bool_decide (expiresIn assoc > 0) then
       let dat := <["openid.mode" := "id_res"]> args in
       let! signed := getitem args "openid.signed" in
       let signed_fields := signed_fields_of signed in
       let! (_, v_sig) := lift (signReply dat (secret assoc) signed_fields) in
       let! sig := getitem args "openid.sig" in
       if bool_decide (v_sig = sig) then
         let! h := getitem args "openid.assoc_handle" in
         store_remove External h ;;
         let invalidate_handle := args !! "openid.invalidate_handle" in
         match invalidate_handle with
         | Some ih =>
             if truthy (Some ih) then
               let! found := store_lookup External ih "HMAC-SHA1" in
               match found with
               | None => ret (<["invalidate_handle" := VStr ih]> reply, "true")
               | Some _ => ret (reply, "true")
               end
             else ret (reply, "true")
         | None => ret (reply, "true")
         end
       else ret (reply, "false")
     else
       let! h := getitem args "openid.assoc_handle" in
       store_remove Internal h ;;
       ret (reply, "false")) in
  let reply := <["is_valid" := VStr is_valid]> reply in
  ret (OK (dictToKV reply))
  end.

(** [try: ... except KeyError, e: ...] *)
Definition catch_KeyError {A} (c : M A) (handler : string -> M A) : M A :=
  fun st =>
    match c st with
    | (Raise (KeyError k), st') => handler k st'
    | r => r
    end.

Definition processPost (args : gmap string string) : M outcome :=
  catch_KeyError
    (let! mode := getitem args "openid.mode" in
     if bool_decide (mode = "associate") then _associate args
     else if bool_decide (mode = "check_authentication") then _checkAuth args
     else ret (_postErr ("Unrecognized openid.mode (" +:+ repr mode +:+ ")")))
    (fun k =>
       ret (_postErr ("Necessary openid argument (" +:+ repr k
                      +:+ ") missing."))).

End OpenIDServerImpl.

(** ** Validation of authentication requests *)

Section Validation.
Context {TR : trustroot}.

(** The request passes the four validation steps of [processGet]. *)
Definition valid_request (args : gmap string string)
    (identity return_to : string) : Prop :=
  args !! "openid.identity" = Some identity /\
  args !! "openid.return_to" = Some return_to /\
  exists tr, TrustRoot_parse (args !! "openid.trust_root") = Some tr /\
             validateURL tr return_to = true.

(** The request fails validation, at the first failing step, with this
    message. *)
Inductive validation_failure (args : gmap string string) : string -> Prop :=
| missing_identity :
    args !! "openid.identity" = None ->
    validation_failure args "No identity specified"
| malformed_trust_root :
    is_Some (args !! "openid.identity") ->
    TrustRoot_parse (args !! "openid.trust_root") = None ->
    validation_failure args
      ("Malformed trust_root: " +:+ str_of (args !! "openid.trust_root"))
| missing_return_to tr :
    is_Some (args !! "openid.identity") ->
    TrustRoot_parse (args !! "openid.trust_root") = Some tr ->
    args !! "openid.return_to" = None ->
    validation_failure args "No return_to URL specified"
| return_to_out_of_scope tr return_to :
    is_Some (args !! "openid.identity") ->
    TrustRoot_parse (args !! "openid.trust_root") = Some tr ->
    args !! "openid.return_to" = Some return_to ->
    validateURL tr return_to = false ->
    validation_failure args
      ("return_to(" +:+ return_to +:+ ") not valid against trust_root("
       +:+ str_of (args !! "openid.trust_root") +:+ ")").

End Validation.

(** ** A reference instance

    Small stand-ins for the imported modules, on which the server can be run:
    a trust root is a URL prefix, the serializers list the fields in key
    order, and the digest of a text under a key is the key followed by the
    text. Nothing below depends on these choices except the examples that
    run the server on concrete requests. *)
Module Reference.

Fixpoint digits (s : string) (acc : Z) : Z :=
  match s with
  | EmptyString => acc
  | String a s' => digits s' (10 * acc + (Z.of_nat (nat_of_ascii a) - 48))
  end.

Definition nl : string := String (ascii_of_nat 10) EmptyString.

Definition join (sep : string) (l : list string) : string :=
  match l with
  | [] => ""
  | x :: xs => fold_left (fun acc y => acc +:+ sep +:+ y) xs x
  end.

Definition show (v : pyval) : string :=
  match v with
  | VStr s => s
  | VInt z => pretty z
  end.

Fixpoint tokens (reply : gmap string string) (fields : list string)
  : result (list string) :=
  match fields with
  | [] => Ret []
  | f :: fs =>
      match reply !! ("openid." +:+ f) with
      | None => Raise (KeyError ("openid." +:+ f))
      | Some v =>
          match tokens reply fs with
          | Ret l => Ret ((f +:+ ":" +:+ v +:+ nl) :: l)
          | Raise e => Raise e
          end
      end
  end.

#[export] Instance store : StoreBackend := {
  fresh w m ty :=
    if bool_decide (ty = "HMAC-SHA1")
    then Some (mkAssociation
                 ((match w with Internal => "int-" | External => "ext-" end)
                  +:+ pretty (size m))
                 "0123456789abcdefghij" ty 3600)
    else None
}.

#[export] Instance tr : trustroot := {
  TrustRoot := string;
  TrustRoot_parse o :=
    match o with
    | Some s => if bool_decide (s = "") then None else Some s
    | None => None
    end;
  validateURL root u := String.prefix root u
}.

#[export] Instance oid : oidutil := {
  appendArgs u args :=
    u +:+ "?" +:+ join "&" ((fun kv => kv.1 +:+ "=" +:+ kv.2) <$> map_to_list args);
  dictToKV d :=
    String.concat "" ((fun kv => kv.1 +:+ ":" +:+ show kv.2 +:+ nl) <$> map_to_list d);
  toBase64 s := s
}.

#[export] Instance crypt : cryptutil := {
  signReply reply key fields :=
    match tokens reply fields with
    | Ret l => Ret (join "," fields, key +:+ "/" +:+ String.concat "" l)
    | Raise e => Raise e
    end;
  base64ToLong s := digits s 0;
  longToBase64 z := pretty z;
  longToBinary z := pretty z;
  sha1 s := s;
  strxor a b := a +:+ "^" +:+ b
}.

#[export] Instance py : builtins := {
  repr s := "'" +:+ s +:+ "'";
  randrange p := 3
}.

Definition server_url : string := "https://op.example/server".

Definition empty_state : state := mkState ∅ ∅ [] [].

Definition key : string := "0123456789abcdefghij".

(** An authentication request of a relying party at rp.example. *)
Definition auth_request (mode : string) : gmap string string :=
  {[ "openid.mode" := mode;
     "openid.identity" := "https://id.example/u";
     "openid.trust_root" := "https://rp.example/";
     "openid.return_to" := "https://rp.example/cb" ]}.

(** The same request, holding on to a handle that the external store has
    with no lifetime left. *)
Definition stale_request : gmap string string :=
  <["openid.assoc_handle" := "ext-7"]> (auth_request "checkid_setup").

Definition stale_state : state :=
  mkState ∅ {[ "ext-7" := mkEntry key "HMAC-SHA1" 0 ]} [] [].

(** A request whose return_to lies outside its trust root. *)
Definition stray_request : gmap string string :=
  <["openid.return_to" := "https://elsewhere.example/cb"]>
    (auth_request "checkid_setup").

(** The internal store holds the handle int-0, alive or expired. *)
Definition live_state : state :=
  mkState {[ "int-0" := mkEntry key "HMAC-SHA1" 3600 ]} ∅ [] [].

Definition expired_state : state :=
  mkState {[ "int-0" := mkEntry key "HMAC-SHA1" 0 ]} ∅ [] [].

(** A check_authentication request on int-0 over the signed list [signed],
    with the signature of the one field [mode:id_res] under [key]. *)
Definition check_request (signed : string) : gmap string string :=
  {[ "openid.mode" := "check_authentication";
     "openid.assoc_handle" := "int-0";
     "openid.signed" := signed;
     "openid.sig" := key +:+ "/mode:id_res" +:+ nl ]}.

Definition associate_request : gmap string string :=
  {[ "openid.mode" := "associate" ]}.

(** An associate request for DH-SHA1 with modulus 23, generator 5 and the
    consumer's public value [cpub]. *)
Definition dh_request (cpub : string) : gmap string string :=
  {[ "openid.mode" := "associate";
     "openid.session_type" := "DH-SHA1";
     "openid.dh_modulus" := "23";
     "openid.dh_gen" := "5";
     "openid.dh_consumer_public" := cpub ]}.

End Reference.

(** More requests and states for the reference instance, and a store that
    issues nothing. *)
Module Requests.
Import Reference.

Definition closed_store : StoreBackend := {| fresh _ _ _ := None |}.

(** The external store holds ext-7 with lifetime left. *)
Definition smart_state : state :=
  mkState ∅ {[ "ext-7" := mkEntry key "HMAC-SHA1" 3600 ]} [] [].

(** The signature of the reference instance over the three fixed fields of
    an answer to [auth_request]. *)
Definition auth_sig : string :=
  key +:+ "/mode:id_res" +:+ nl
  +:+ "identity:https://id.example/u" +:+ nl
  +:+ "return_to:https://rp.example/cb" +:+ nl.

Definition typed_associate (ty : string) : gmap string string :=
  {[ "openid.mode" := "associate"; "openid.assoc_type" := ty ]}.

Definition session_associate (session : string) : gmap string string :=
  {[ "openid.mode" := "associate"; "openid.session_type" := session ]}.

(** A DH-SHA1 associate request that gives the modulus only. *)
Definition dh_without_gen : gmap string string :=
  {[ "openid.mode" := "associate";
     "openid.session_type" := "DH-SHA1";
     "openid.dh_modulus" := "23" ]}.

Definition forged_check : gmap string string :=
  <["openid.sig" := "forged"]> (check_request "mode").

Definition unsigned_check : gmap string string :=
  delete "openid.sig" (check_request "mode").

(** An authorized request that carries an assoc_handle, the empty string. *)
Definition empty_handle_request : gmap string string :=
  <["openid.assoc_handle" := ""]> (auth_request "checkid_setup").

Definition echo_check : gmap string string :=
  <["openid.invalidate_handle" := "int-0"]> (check_request "mode").

End Requests.

(** * Properties *)

(** ** Interactive authentication requests: [processGet] *)

(** Running a computation one step at a time. *)
Ltac run :=
  unfold bind, ret, raise, lift, local, print,
    store_get, store_lookup, store_remove; simpl.

(** ** Strings and stores *)

Example strip_padded : strip "  mode,identity " = "mode,identity".
Proof. reflexivity. Qed.

Example strip_blank : strip (String (ascii_of_nat 9) " ") = "".
Proof. reflexivity. Qed.

Example split_signed : split comma "mode,identity,return_to" = _signed_fields.
Proof. reflexivity. Qed.

Example split_empty : split comma "" = [""].
Proof. reflexivity. Qed.

Lemma split_not_nil (sep : ascii) (s : string) : split sep s <> [].
Proof.
  destruct s as [|a s]; simpl; [done|].
  case_bool_decide; [done|]. by destruct (split sep s).
Qed.

Lemma lstrip_no_space (a : ascii) (s : string) :
  is_space a = false -> lstrip (String a s) = String a s.
Proof. intros Ha. simpl. by rewrite Ha. Qed.

(** An association found under a handle carries that handle and the type
    asked for. *)
Lemma lookup_assoc_Some (h ty : string) (m : gmap string entry)
    (a : Association) :
  lookup_assoc h ty m = Some a ->
  handle a = h /\ assoc_type a = ty /\ m !! h = Some (entry_of a).
Proof.
  unfold lookup_assoc. destruct (m !! h) as [e|]; [|done].
  case_bool_decide as Hty; [|done]. intros [= <-]. by destruct e.
Qed.

(** The store contract: a removed handle is not found, other handles are
    not affected, and removing is idempotent. *)
Lemma lookup_assoc_delete (h ty : string) (m : gmap string entry) :
  lookup_assoc h ty (delete h m) = None.
Proof. unfold lookup_assoc. by rewrite lookup_delete_eq. Qed.

Lemma lookup_assoc_delete_ne (h h' ty : string) (m : gmap string entry) :
  h <> h' -> lookup_assoc h' ty (delete h m) = lookup_assoc h' ty m.
Proof. intros Hne. unfold lookup_assoc. by rewrite lookup_delete_ne. Qed.

Lemma remove_idempotent (h : string) (m : gmap string entry) :
  delete h (delete h m) = delete h m.
Proof. apply delete_id, lookup_delete_eq. Qed.

Section ProcessGet.
Context {SB : StoreBackend} {TR : trustroot} {OU : oidutil}
        {CU : cryptutil} {PB : builtins}.
Variable url : string.

Lemma truthy_Some (s : string) : truthy (Some s) = true <-> s <> "".
Proof.
  unfold truthy. destruct (bool_decide_reflect (s = "")); simpl; split;
    congruence.
Qed.

Lemma truthy_true (x : option string) :
  truthy x = true <-> exists s, x = Some s /\ s <> "".
Proof.
  destruct x as [s|].
  - rewrite truthy_Some. split; [eauto | intros (s' & [= ->] & ?); done].
  - unfold truthy. split; [done | intros (s & ? & _); done].
Qed.

Lemma truthy_false (x : option string) :
  truthy x = false <-> x = None \/ x = Some "".
Proof.
  unfold truthy. destruct x as [s|]; [|by split; [left|]].
  destruct (bool_decide_reflect (s = "")) as [->|Hne]; simpl.
  - by split; [right|].
  - split; [done|]. intros [?|[= ?]]; done.
Qed.

Lemma getErr_addressed (args : gmap string string) (msg return_to : string) :
  args !! "openid.return_to" = Some return_to -> return_to <> "" ->
  _getErr args msg
  = REDIRECT (appendArgs return_to
                {[ "openid.mode" := "error"; "openid.error" := msg ]}).
Proof.
  intros Hrt Hne. unfold _getErr. rewrite Hrt.
  by rewrite (proj2 (truthy_Some return_to) Hne).
Qed.

Lemma getErr_raw (args : gmap string string) (msg : string) :
  truthy (args !! "openid.return_to") = false -> _getErr args msg = ERROR msg.
Proof.
  intros Hrt. unfold _getErr.
  destruct (args !! "openid.return_to") as [rt|]; [|done]. by rewrite Hrt.
Qed.

Lemma processGet_validation_failure (authorized : bool)
    (args : gmap string string) (msg : string) (st : state) :
  validation_failure args msg ->
  processGet url authorized args st = (Ret (_getErr args msg), st).
Proof.
  unfold processGet.
  destruct 1 as [Hid | [i Hid] Htr | tr [i Hid] Htr Hrt
                | tr rt [i Hid] Htr Hrt Hv]; rewrite Hid; try done;
    rewrite Htr; try done; rewrite Hrt; try done.
  by rewrite Hv.
Qed.

Lemma processGet_valid_unauthorized (args : gmap string string)
    (identity return_to : string) (st : state) :
  valid_request args identity return_to ->
  processGet url false args st
  = (Ret (if bool_decide (args !! "openid.mode" = Some "checkid_immediate")
          then REDIRECT (appendArgs url
                           (<["openid.mode" := "checkid_setup"]> args))
          else if bool_decide (args !! "openid.mode" = Some "checkid_setup")
          then DO_AUTH (appendArgs url args)
                 (appendArgs return_to {["openid.mode" := "cancel"]})
          else _getErr args ("open.mode (" +:+ repr_of (args !! "openid.mode")
                             +:+ ") not understood")), st).
Proof.
  intros (Hid & Hrt & tr & Htr & Hv). unfold processGet.
  rewrite Hid, Htr, Hrt, Hv. simpl. by repeat case_bool_decide.
Qed.

(** C8. A request that fails validation (no identity, a trust root that
    does not parse, no return_to, or a return_to outside the trust root) is
    answered, leaving the stores alone, with the message of the first step
    that failed: by a redirect to return_to carrying mode=error and the
    message when return_to is present and non-empty (also when return_to is
    what failed), and by a raw error otherwise. *)
Theorem validation_error_outcome (authorized : bool)
    (args : gmap string string) (st : state) :
  args !! "openid.identity" = None \/
  TrustRoot_parse (args !! "openid.trust_root") = None \/
  args !! "openid.return_to" = None \/
  (exists tr return_to,
      TrustRoot_parse (args !! "openid.trust_root") = Some tr /\
      args !! "openid.return_to" = Some return_to /\
      validateURL tr return_to = false) ->
  exists msg out,
    validation_failure args msg /\
    processGet url authorized args st = (Ret out, st) /\
    (forall return_to,
        args !! "openid.return_to" = Some return_to -> return_to <> "" ->
        out = REDIRECT (appendArgs return_to
                 {[ "openid.mode" := "error"; "openid.error" := msg ]})) /\
    (args !! "openid.return_to" = None \/
     args !! "openid.return_to" = Some "" -> out = ERROR msg).
Proof.
  intros Hfail.
  assert (exists msg, validation_failure args msg) as [msg Hmsg].
  { destruct (args !! "openid.identity") as [i|] eqn:Hid;
      [|eexists; by apply missing_identity].
    destruct (TrustRoot_parse (args !! "openid.trust_root")) as [tr|] eqn:Htr;
      [|eexists; by apply malformed_trust_root].
    destruct (args !! "openid.return_to") as [rt|] eqn:Hrt;
      [|eexists; by eapply missing_return_to].
    destruct Hfail as [?|[?|[?|(tr' & rt' & [= <-] & [= <-] & Hv)]]];
      try done.
    eexists. by eapply return_to_out_of_scope. }
  exists msg, (_getErr args msg). split; [done|]. split; [|split].
  - by apply processGet_validation_failure.
  - intros rt Hrt Hne. by apply getErr_addressed.
  - intros Hrt. apply getErr_raw, truthy_false. done.
Qed.

(** C9. A valid request that is not authorized and asks for
    checkid_immediate is redirected to the server's own URL with the
    request's fields, [openid.mode] alone rewritten to checkid_setup. *)
Theorem checkid_immediate_redirect (args : gmap string string)
    (identity return_to : string) (st : state) :
  valid_request args identity return_to ->
  args !! "openid.mode" = Some "checkid_immediate" ->
  exists nargs : gmap string string,
    processGet url false args st = (Ret (REDIRECT (appendArgs url nargs)), st) /\
    nargs !! "openid.mode" = Some "checkid_setup" /\
    (forall k, k <> "openid.mode" -> nargs !! k = args !! k) /\
    dom nargs = dom args.
Proof.
  intros Hvalid Hmode.
  exists (<["openid.mode" := "checkid_setup"]> args).
  rewrite (processGet_valid_unauthorized _ _ _ _ Hvalid), Hmode.
  split; [done|]. split; [by rewrite lookup_insert_eq|]. split.
  - intros k Hk. by rewrite lookup_insert_ne.
  - apply dom_insert_lookup_L. by rewrite Hmode.
Qed.

(** C10. With [authorized] false, [processGet] leaves the whole state as
    it found it, on every request: neither store changes and no get, lookup
    or remove is recorded on either of them. *)
Theorem unauthorized_touches_no_store (args : gmap string string)
    (st : state) :
  (processGet url false args st).2 = st.
Proof.
  unfold processGet. repeat case_match; done.
Qed.

(** C6, for a handle that is not the empty string. An authorized, valid
    request names a non-empty handle that the
    external store does not hold, or holds with no lifetime left. Then the
    expired entry, if there is one, is removed from the external store; the
    internal store issues an association, whose secret signs the reply; the
    reply names the request's handle as [openid.invalidate_handle] and the
    issued handle as [openid.assoc_handle]. *)
Theorem stale_handle_falls_back (args : gmap string string)
    (identity return_to h : string) (a : Association) (sg sig : string)
    (st : state) :
  valid_request args identity return_to ->
  args !! "openid.assoc_handle" = Some h -> h <> "" ->
  (forall e, lookup_assoc h "HMAC-SHA1" (estore st) = Some e ->
             expiresIn e <= 0) ->
  fresh Internal (istore st) "HMAC-SHA1" = Some a ->
  signReply
    (<["openid.assoc_handle" := handle a]>
       (<["openid.invalidate_handle" := h]>
          {[ "openid.mode" := "id_res";
             "openid.return_to" := return_to;
             "openid.identity" := identity ]}))
    (secret a) _signed_fields = Ret (sg, sig) ->
  exists (reply : gmap string string) (st' : state),
    processGet url true args st
    = (Ret (REDIRECT (appendArgs return_to reply)), st') /\
    reply !! "openid.invalidate_handle" = Some h /\
    reply !! "openid.assoc_handle" = Some (handle a) /\
    reply !! "openid.signed" = Some sg /\
    reply !! "openid.sig" = Some sig /\
    istore st' = <[handle a := entry_of a]> (istore st) /\
    (lookup_assoc h "HMAC-SHA1" (estore st) = None ->
     estore st' = estore st) /\
    (is_Some (lookup_assoc h "HMAC-SHA1" (estore st)) ->
     estore st' = delete h (estore st) /\ estore st' !! h = None).
Proof.
  intros (Hid & Hrt & tr & Htr & Hv) Hh Hne Hstale Hfresh Hsign.
  unfold processGet, resolve_assoc.
  rewrite Hid, Htr, Hrt, Hv, Hh. simpl.
  rewrite (proj2 (truthy_Some h) Hne).
  destruct (lookup_assoc h "HMAC-SHA1" (estore st)) as [e|] eqn:Hlook.
  - assert (handle e = h) as He.
    { by apply lookup_assoc_Some in Hlook as [? _]. }
    pose proof (Hstale e eq_refl) as Hexp.
    run. rewrite Hlook. simpl.
    rewrite (bool_decide_true (expiresIn e <= 0)) by done.
    simpl. rewrite Hfresh. simpl. rewrite Hsign. simpl.
    eexists _, _. split; [reflexivity|]. simpl.
    rewrite He. repeat split; try done; try by simplify_map_eq.
  - run. rewrite Hlook. simpl. rewrite Hfresh. simpl. rewrite Hsign. simpl.
    eexists _, _. split; [reflexivity|]. simpl.
    repeat split; try done; try by simplify_map_eq.
    all: by intros [? ?].
Qed.

End ProcessGet.

(** ** Back-channel requests: [processPost] *)

Section ProcessPost.
Context {SB : StoreBackend} {TR : trustroot} {OU : oidutil}
        {CU : cryptutil} {PB : builtins}.

(** What [_checkAuth] answers, and the state it leaves, when the handle is
    known to the internal store, has lifetime left, and the recomputed
    signature is [v_sig]. *)
Lemma checkAuth_unexpired (args : gmap string string)
    (h s g sg v_sig : string) (a : Association) (st : state) :
  args !! "openid.assoc_handle" = Some h ->
  lookup_assoc h "HMAC-SHA1" (istore st) = Some a ->
  expiresIn a > 0 ->
  args !! "openid.signed" = Some s ->
  args !! "openid.sig" = Some g ->
  signReply (<["openid.mode" := "id_res"]> args) (secret a)
    (split comma (strip s)) = Ret (sg, v_sig) ->
  exists (reply : gmap string pyval) (st' : state),
    _checkAuth args st = (Ret (OK (dictToKV reply)), st') /\
    reply !! "is_valid"
    = Some (VStr (if bool_decide (v_sig = g) then "true" else "false")) /\
    istore st' = istore st /\
    estore st' = (if bool_decide (v_sig = g) then delete h (estore st)
                  else estore st).
Proof.
  intros Hh Hlook Hexp Hs Hg Hsign.
  unfold _checkAuth, getitem, signed_fields_of. rewrite Hh, Hs, Hg.
  run. rewrite Hlook. simpl. rewrite bool_decide_true by done. simpl.
  rewrite Hsign. simpl.
  destruct (bool_decide (v_sig = g)); simpl.
  - destruct (args !! "openid.invalidate_handle") as [ih|]; simpl.
    + destruct (truthy (Some ih)); simpl.
      * destruct (lookup_assoc ih "HMAC-SHA1" _); simpl;
          eexists _, _; (split; [reflexivity|]); by simplify_map_eq.
      * eexists _, _. split; [reflexivity|]. by simplify_map_eq.
    + eexists _, _. split; [reflexivity|]. by simplify_map_eq.
  - eexists _, _. split; [reflexivity|]. by simplify_map_eq.
Qed.

Lemma processPost_checkAuth (args : gmap string string) (out : outcome)
    (st st' : state) :
  args !! "openid.mode" = Some "check_authentication" ->
  _checkAuth args st = (Ret out, st') ->
  processPost args st = (Ret out, st').
Proof.
  intros Hmode Hrun. unfold processPost, catch_KeyError, getitem.
  rewrite Hmode. run. by rewrite Hrun.
Qed.

Lemma processPost_associate (args : gmap string string) (st : state) :
  args !! "openid.mode" = Some "associate" ->
  processPost args st
  = catch_KeyError (_associate args)
      (fun k => ret (_postErr ("Necessary openid argument (" +:+ repr k
                               +:+ ") missing."))) st.
Proof.
  intros Hmode. unfold processPost, catch_KeyError, getitem.
  rewrite Hmode. by run.
Qed.

(** C1. The code, against the specification: when the recomputed signature
    equals the request's sig, the reply says is_valid=true, but the handle
    is removed from the external store and the internal store is left as it
    was; the same request, sent again, is answered is_valid=true again. *)
Theorem valid_check_is_replayable (args : gmap string string)
    (h s g sg : string) (a : Association) (st : state) :
  args !! "openid.mode" = Some "check_authentication" ->
  args !! "openid.assoc_handle" = Some h ->
  lookup_assoc h "HMAC-SHA1" (istore st) = Some a ->
  expiresIn a > 0 ->
  args !! "openid.signed" = Some s ->
  args !! "openid.sig" = Some g ->
  signReply (<["openid.mode" := "id_res"]> args) (secret a)
    (signed_fields_of s) = Ret (sg, g) ->
  exists (reply reply2 : gmap string pyval) (st' st'' : state),
    processPost args st = (Ret (OK (dictToKV reply)), st') /\
    reply !! "is_valid" = Some (VStr "true") /\
    istore st' = istore st /\
    estore st' = delete h (estore st) /\
    processPost args st' = (Ret (OK (dictToKV reply2)), st'') /\
    reply2 !! "is_valid" = Some (VStr "true").
Proof.
  intros Hmode Hh Hlook Hexp Hs Hg Hsign.
  destruct (checkAuth_unexpired args h s g sg g a st)
    as (reply & st' & Hrun & Hvalid & Hi & He); try done.
  rewrite bool_decide_true in Hvalid, He by done.
  destruct (checkAuth_unexpired args h s g sg g a st')
    as (reply2 & st'' & Hrun2 & Hvalid2 & _); try done.
  { by rewrite Hi. }
  rewrite bool_decide_true in Hvalid2 by done.
  exists reply, reply2, st', st''.
  repeat split; try done; by apply processPost_checkAuth.
Qed.

(** C4, as the code has it. On an unexpired internal-store association the
    signature is recomputed by [signReply] over the request's own fields
    with [openid.mode] set to id_res, under the association's secret, for
    the field list got from the request's own [openid.signed] by stripping
    the whitespace around it and splitting it at commas; the reply says
    is_valid=true exactly when that signature equals the request's sig. *)
Theorem check_recomputes_over_request_fields (args : gmap string string)
    (h s g sg v_sig : string) (a : Association) (st : state) :
  args !! "openid.mode" = Some "check_authentication" ->
  args !! "openid.assoc_handle" = Some h ->
  lookup_assoc h "HMAC-SHA1" (istore st) = Some a ->
  expiresIn a > 0 ->
  args !! "openid.signed" = Some s ->
  args !! "openid.sig" = Some g ->
  signReply (<["openid.mode" := "id_res"]> args) (secret a)
    (split comma (strip s)) = Ret (sg, v_sig) ->
  exists (reply : gmap string pyval) (st' : state),
    processPost args st = (Ret (OK (dictToKV reply)), st') /\
    (v_sig = g -> reply !! "is_valid" = Some (VStr "true")) /\
    (v_sig <> g -> reply !! "is_valid" = Some (VStr "false")).
Proof.
  intros Hmode Hh Hlook Hexp Hs Hg Hsign.
  destruct (checkAuth_unexpired args h s g sg v_sig a st)
    as (reply & st' & Hrun & Hvalid & _); try done.
  exists reply, st'. split; [by apply processPost_checkAuth|].
  split; intros Hcmp; rewrite Hvalid.
  - by rewrite bool_decide_true.
  - by rewrite bool_decide_false.
Qed.

(** C7. A check_authentication request on a handle that the internal store
    holds with no lifetime left removes the handle from the internal store
    and is answered Ok with is_valid=false; the same request, sent again, is
    answered with an error: the handle is not found any more. *)
Theorem expired_check_removes_handle (args : gmap string string)
    (h : string) (a : Association) (st : state) :
  args !! "openid.mode" = Some "check_authentication" ->
  args !! "openid.assoc_handle" = Some h ->
  lookup_assoc h "HMAC-SHA1" (istore st) = Some a ->
  expiresIn a <= 0 ->
  exists st' st'' : state,
    processPost args st
    = (Ret (OK (dictToKV {["is_valid" := VStr "false"]})), st') /\
    istore st' = delete h (istore st) /\
    istore st' !! h = None /\
    estore st' = estore st /\
    processPost args st'
    = (Ret (ERROR (dictToKV
              {["error" := VStr ("no secret found for " +:+ repr h)]})),
       st'') /\
    istore st'' = istore st' /\
    estore st'' = estore st'.
Proof.
  intros Hmode Hh Hlook Hexp.
  eexists _, _. split; [|split; [|split; [|split; [|split]]]].
  - apply processPost_checkAuth; [done|].
    unfold _checkAuth, getitem. rewrite Hh. run. rewrite Hlook. simpl.
    rewrite bool_decide_false by lia. simpl. reflexivity.
  - done.
  - simpl. by rewrite lookup_delete_eq.
  - done.
  - apply processPost_checkAuth; [done|].
    unfold _checkAuth, getitem. rewrite Hh. run.
    rewrite lookup_assoc_delete. reflexivity.
  - done.
Qed.

(** C2. The code, against the specification: an associate request with no
    session_type (or an empty one), for a type the external store issues,
    leaves [processPost] by an [UnboundLocalError]: [print] reads the local
    [mac_key], which only the DH-SHA1 branch assigns, and [processPost]
    handles [KeyError] alone. No outcome is returned. *)
Theorem associate_without_session_escapes (args : gmap string string)
    (a : Association) (st : state) :
  args !! "openid.mode" = Some "associate" ->
  truthy (args !! "openid.session_type") = false ->
  fresh External (estore st)
    (default "HMAC-SHA1" (args !! "openid.assoc_type")) = Some a ->
  (processPost args st).1 = Raise (UnboundLocalError "mac_key") /\
  forall (out : outcome) (st' : state), processPost args st <> (Ret out, st').
Proof.
  intros Hmode Hsess Hfresh.
  assert ((processPost args st).1 = Raise (UnboundLocalError "mac_key"))
    as Hraise.
  { rewrite processPost_associate by done.
    unfold catch_KeyError, _associate. run. rewrite Hfresh. simpl.
    destruct (args !! "openid.session_type") as [t|]; [|done].
    by rewrite Hsess. }
  split; [done|]. intros out st' Hret. by rewrite Hret in Hraise.
Qed.

(** C3. The code, against the specification: for an associate request with no
    session_type, [_associate] issues the external-store association and
    persists it, then raises [UnboundLocalError] at its [print] statement,
    before anything is printed and before the reply (which by then holds
    assoc_type, assoc_handle, expires_in and mac_key) is serialized. *)
Theorem associate_plain_reply_is_lost (args : gmap string string)
    (a : Association) (st : state) :
  args !! "openid.session_type" = None ->
  fresh External (estore st)
    (default "HMAC-SHA1" (args !! "openid.assoc_type")) = Some a ->
  _associate args st
  = (Raise (UnboundLocalError "mac_key"),
     mkState (istore st) (<[handle a := entry_of a]> (estore st))
       (trace st ++ [OpGet External
                       (default "HMAC-SHA1" (args !! "openid.assoc_type"))])
       (stdout st)).
Proof.
  intros Hsess Hfresh. unfold _associate. run.
  rewrite Hfresh, Hsess. reflexivity.
Qed.



Lemma decryptKeyExchange_Ret (dh : DiffieHellman) (keyEx shared : Z) :
  decryptKeyExchange dh keyEx = Ret shared ->
  keyEx <> 0 /\ keyEx <> 1 /\ keyEx <> dh_p dh - 1 /\ dh_p dh <> 0 /\
  shared = (keyEx ^ dh_x dh) mod dh_p dh.
Proof.
  unfold decryptKeyExchange, degenerate.
  repeat case_bool_decide; simpl; try done. by intros [= <-].
Qed.


End ProcessPost.

(** ** More of [processGet] *)

Section ProcessGetPaths.
Context {SB : StoreBackend} {TR : trustroot} {OU : oidutil}
        {CU : cryptutil} {PB : builtins}.
Variable url : string.

(** X1. A valid request that is not authorized and asks for checkid_setup
    is answered DO_AUTH with two URLs: the server's own URL with the request
    unchanged, and return_to with the one field mode=cancel. Nothing in the
    state changes. *)
Theorem checkid_setup_needs_approval (args : gmap string string)
    (identity return_to : string) (st : state) :
  valid_request args identity return_to ->
  args !! "openid.mode" = Some "checkid_setup" ->
  processGet url false args st
  = (Ret (DO_AUTH (appendArgs url args)
            (appendArgs return_to {["openid.mode" := "cancel"]})), st).
Proof.
  intros Hvalid Hmode.
  rewrite (processGet_valid_unauthorized _ _ _ _ _ Hvalid), Hmode.
  reflexivity.
Qed.

(** X2. A valid request that is not authorized and whose mode is neither
    checkid_immediate nor checkid_setup (a missing mode included) is an
    error, [open.mode (<repr of the mode>) not understood], sent as a
    redirect to return_to unless return_to is the empty string. *)
Theorem unauthorized_mode_not_understood (args : gmap string string)
    (identity return_to : string) (st : state) :
  valid_request args identity return_to ->
  args !! "openid.mode" <> Some "checkid_immediate" ->
  args !! "openid.mode" <> Some "checkid_setup" ->
  let msg := "open.mode (" +:+ repr_of (args !! "openid.mode")
             +:+ ") not understood" in
  processGet url false args st
  = (Ret (if bool_decide (return_to = "") then ERROR msg
          else REDIRECT (appendArgs return_to
                 {[ "openid.mode" := "error"; "openid.error" := msg ]})), st).
Proof.
  intros Hvalid Hm1 Hm2 msg.
  rewrite (processGet_valid_unauthorized _ _ _ _ _ Hvalid).
  rewrite !bool_decide_false by done.
  destruct Hvalid as (_ & Hrt & _).
  case_bool_decide as Hempty.
  - rewrite getErr_raw; [done|]. apply truthy_false. right. by rewrite Hrt, Hempty.
  - by rewrite (getErr_addressed _ _ _ Hrt Hempty).
Qed.

(** X3. An authorized answer depends on four fields of the request only:
    identity, trust_root, return_to and assoc_handle. In particular
    [openid.mode] is never looked at once the request is authorized. *)
Theorem authorized_reads_four_fields (args args' : gmap string string)
    (st : state) :
  args !! "openid.identity" = args' !! "openid.identity" ->
  args !! "openid.trust_root" = args' !! "openid.trust_root" ->
  args !! "openid.return_to" = args' !! "openid.return_to" ->
  args !! "openid.assoc_handle" = args' !! "openid.assoc_handle" ->
  processGet url true args st = processGet url true args' st.
Proof.
  intros Hid Htr Hrt Hh. unfold processGet, _getErr.
  rewrite Hid, Htr, Hrt, Hh. reflexivity.
Qed.

(** X4. Dumb mode. An authorized, valid request with no assoc_handle (or an
    empty one) makes the internal store issue an association, never touches
    the external store, and is answered by a redirect to return_to whose
    fields are mode=id_res, the request's identity and return_to, the
    issued handle, and the signature over the fixed field list; there is no
    invalidate_handle. *)
Theorem dumb_mode_reply (args : gmap string string)
    (identity return_to : string) (a : Association) (sg sig : string)
    (st : state) :
  valid_request args identity return_to ->
  truthy (args !! "openid.assoc_handle") = false ->
  fresh Internal (istore st) "HMAC-SHA1" = Some a ->
  signReply
    (<["openid.assoc_handle" := handle a]>
       {[ "openid.mode" := "id_res";
          "openid.return_to" := return_to;
          "openid.identity" := identity ]})
    (secret a) _signed_fields = Ret (sg, sig) ->
  processGet url true args st
  = (Ret (REDIRECT (appendArgs return_to
            {[ "openid.signed" := sg;
               "openid.sig" := sig;
               "openid.assoc_handle" := handle a;
               "openid.mode" := "id_res";
               "openid.return_to" := return_to;
               "openid.identity" := identity ]})),
     mkState (<[handle a := entry_of a]> (istore st)) (estore st)
       (trace st ++ [OpGet Internal "HMAC-SHA1"]) (stdout st)).
Proof.
  intros (Hid & Hrt & tr & Htr & Hv) Hdumb Hfresh Hsign.
  unfold processGet, resolve_assoc. rewrite Hid, Htr, Hrt, Hv. simpl.
  destruct (args !! "openid.assoc_handle") as [h|]; [rewrite Hdumb|];
    run; rewrite Hfresh; simpl; rewrite Hsign; reflexivity.
Qed.

(** X5. Smart mode. An authorized, valid request naming a handle that the
    external store holds with lifetime left is signed with that
    association's secret; the reply names the same handle, has no
    invalidate_handle, and neither store changes: the one store operation
    is the lookup. *)
Theorem smart_mode_reply (args : gmap string string)
    (identity return_to h : string) (a : Association) (sg sig : string)
    (st : state) :
  valid_request args identity return_to ->
  args !! "openid.assoc_handle" = Some h -> h <> "" ->
  lookup_assoc h "HMAC-SHA1" (estore st) = Some a ->
  expiresIn a > 0 ->
  signReply
    (<["openid.assoc_handle" := h]>
       {[ "openid.mode" := "id_res";
          "openid.return_to" := return_to;
          "openid.identity" := identity ]})
    (secret a) _signed_fields = Ret (sg, sig) ->
  processGet url true args st
  = (Ret (REDIRECT (appendArgs return_to
            {[ "openid.signed" := sg;
               "openid.sig" := sig;
               "openid.assoc_handle" := h;
               "openid.mode" := "id_res";
               "openid.return_to" := return_to;
               "openid.identity" := identity ]})),
     mkState (istore st) (estore st)
       (trace st ++ [OpLookup External h "HMAC-SHA1"]) (stdout st)).
Proof.
  intros (Hid & Hrt & tr & Htr & Hv) Hh Hne Hlook Hlive Hsign.
  destruct (lookup_assoc_Some _ _ _ _ Hlook) as (Hha & _).
  unfold processGet, resolve_assoc. rewrite Hid, Htr, Hrt, Hv, Hh. simpl.
  rewrite (proj2 (truthy_Some h) Hne).
  run. rewrite Hlook. simpl.
  rewrite (bool_decide_false (expiresIn a <= 0)) by lia. simpl.
  rewrite Hha, Hsign. reflexivity.
Qed.

(** X6. When the internal store issues nothing, the authorized branch does
    not return an outcome, on either of its two calls of [get]: with no
    assoc_handle (or an empty one), and on the fallback for a handle that
    the external store does not hold or holds with no lifetime left. Reading
    the handle of [None] raises [AttributeError], and [processGet] has no
    handler. The internal store and the output are as before; an expired
    entry has been removed from the external store by then. *)
Theorem authorized_without_issue_raises (args : gmap string string)
    (identity return_to : string) (st : state) :
  valid_request args identity return_to ->
  (forall h a, args !! "openid.assoc_handle" = Some h -> h <> "" ->
               lookup_assoc h "HMAC-SHA1" (estore st) = Some a ->
               expiresIn a <= 0) ->
  fresh Internal (istore st) "HMAC-SHA1" = None ->
  (processGet url true args st).1 = Raise (AttributeError "handle") /\
  istore (processGet url true args st).2 = istore st /\
  stdout (processGet url true args st).2 = stdout st /\
  (truthy (args !! "openid.assoc_handle") = false ->
   (processGet url true args st).2
   = mkState (istore st) (estore st)
       (trace st ++ [OpGet Internal "HMAC-SHA1"]) (stdout st)) /\
  (forall h, args !! "openid.assoc_handle" = Some h -> h <> "" ->
   is_Some (lookup_assoc h "HMAC-SHA1" (estore st)) ->
   estore (processGet url true args st).2 = delete h (estore st)).
Proof.
  intros (Hid & Hrt & tr & Htr & Hv) Hstale Hfresh.
  unfold processGet, resolve_assoc. rewrite Hid, Htr, Hrt, Hv. simpl.
  destruct (args !! "openid.assoc_handle") as [h|] eqn:Hh.
  - destruct (truthy (Some h)) eqn:Htruthy.
    + apply truthy_Some in Htruthy.
      run. destruct (lookup_assoc h "HMAC-SHA1" (estore st)) as [e|] eqn:Hlook;
        simpl.
      * pose proof (Hstale h e eq_refl Htruthy Hlook) as Hexp.
        destruct (lookup_assoc_Some _ _ _ _ Hlook) as (He & _).
        rewrite (bool_decide_true (expiresIn e <= 0)) by done. simpl.
        rewrite Hfresh. simpl. rewrite He.
        repeat split; try done. by intros h' [= <-] _ _.
      * rewrite Hfresh. simpl.
        repeat split; try done.
        intros h' [= <-] _ [x Hx]. by rewrite Hlook in Hx.
    + run. rewrite Hfresh. simpl. repeat split; try done.
      intros h' [= <-] Hne. by apply truthy_Some in Hne; congruence.
  - run. rewrite Hfresh. simpl. repeat split; done.
Qed.

(** X7. What [processGet] may do to the state, on every request: it prints
    nothing, it adds nothing to the external store (at most it removes the
    request's handle), and the internal store is unchanged or gains the one
    association it issued. *)
Theorem processGet_store_discipline (authorized : bool)
    (args : gmap string string) (st : state) :
  let st' := (processGet url authorized args st).2 in
  stdout st' = stdout st /\
  (estore st' = estore st \/
   exists h, args !! "openid.assoc_handle" = Some h /\
             estore st' = delete h (estore st)) /\
  (istore st' = istore st \/
   exists a, fresh Internal (istore st) "HMAC-SHA1" = Some a /\
             istore st' = <[handle a := entry_of a]> (istore st)).
Proof.
  unfold processGet, resolve_assoc.
  destruct (args !! "openid.identity") as [identity|]; [|by auto].
  destruct (TrustRoot_parse _) as [tr|]; [|by auto].
  destruct (args !! "openid.return_to") as [return_to|]; [|by auto].
  destruct (negb (validateURL tr return_to)); [by auto|].
  destruct authorized; simpl; [|by repeat case_match; auto].
  destruct (args !! "openid.assoc_handle") as [h|] eqn:Hh;
    [destruct (truthy (Some h))|]; run.
  - destruct (lookup_assoc h "HMAC-SHA1" (estore st)) as [e|] eqn:Hlook; simpl.
    + destruct (lookup_assoc_Some _ _ _ _ Hlook) as (He & _).
      case_bool_decide; simpl; [rewrite He|].
      * destruct (fresh Internal (istore st) "HMAC-SHA1") as [a|] eqn:Hf;
          simpl; [destruct (signReply _ _ _) as [[sg sig]|]|]; simpl;
          (split; [done|]);
          split; first [by left | right; eexists; split; done].
      * destruct (signReply _ _ _) as [[sg sig]|]; simpl; by auto.
    + destruct (fresh Internal (istore st) "HMAC-SHA1") as [a|] eqn:Hf;
        simpl; [destruct (signReply _ _ _) as [[sg sig]|]|]; simpl;
        (split; [done|]);
        split; first [by left | right; eexists; split; done].
  - destruct (fresh Internal (istore st) "HMAC-SHA1") as [a|] eqn:Hf;
      simpl; [destruct (signReply _ _ _) as [[sg sig]|]|]; simpl;
      (split; [done|]);
      split; first [by left | right; eexists; split; done].
  - destruct (fresh Internal (istore st) "HMAC-SHA1") as [a|] eqn:Hf;
      simpl; [destruct (signReply _ _ _) as [[sg sig]|]|]; simpl;
      (split; [done|]);
      split; first [by left | right; eexists; split; done].
Qed.

End ProcessGetPaths.

(** ** More of [processPost] *)

Section ProcessPostPaths.
Context {SB : StoreBackend} {TR : trustroot} {OU : oidutil}
        {CU : cryptutil} {PB : builtins}.

(** The error outcome of the [except KeyError] handler for the key [k]. *)
Lemma processPost_KeyError (args : gmap string string) (m k : string)
    (st st' : state) :
  args !! "openid.mode" = Some m ->
  (if bool_decide (m = "associate") then _associate args
   else if bool_decide (m = "check_authentication") then _checkAuth args
   else ret (_postErr ("Unrecognized openid.mode (" +:+ repr m +:+ ")"))) st
  = (Raise (KeyError k), st') ->
  processPost args st
  = (Ret (ERROR (dictToKV
            {["error" := VStr ("Necessary openid argument (" +:+ repr k
                               +:+ ") missing.")]})), st').
Proof.
  intros Hmode Hrun. unfold processPost, catch_KeyError, getitem.
  rewrite Hmode. unfold bind, ret in *. simpl in *. by rewrite Hrun.
Qed.

(** X8. A back-channel request without [openid.mode] is an error that names
    the missing key; the state is untouched. *)
Theorem post_without_mode (args : gmap string string) (st : state) :
  args !! "openid.mode" = None ->
  processPost args st
  = (Ret (ERROR (dictToKV
            {["error" := VStr ("Necessary openid argument ("
                               +:+ repr "openid.mode" +:+ ") missing.")]})),
     st).
Proof.
  intros Hmode. unfold processPost, catch_KeyError, getitem.
  rewrite Hmode. reflexivity.
Qed.

(** X9. A back-channel request whose mode is neither associate nor
    check_authentication is an error that names the mode; the state is
    untouched. *)
Theorem post_unrecognized_mode (args : gmap string string) (m : string)
    (st : state) :
  args !! "openid.mode" = Some m ->
  m <> "associate" -> m <> "check_authentication" ->
  processPost args st
  = (Ret (ERROR (dictToKV
            {["error" := VStr ("Unrecognized openid.mode (" +:+ repr m
                               +:+ ")")]})), st).
Proof.
  intros Hmode Ha Hc. unfold processPost, catch_KeyError, getitem.
  rewrite Hmode. run. by rewrite !bool_decide_false.
Qed.


(** X11. An associate request for a type the external store does not issue
    is an error naming the type (HMAC-SHA1 when none was given); nothing is
    stored and nothing is printed, whatever else the request carries. *)
Theorem associate_unsupported_type (args : gmap string string) (st : state) :
  args !! "openid.mode" = Some "associate" ->
  let ty := default "HMAC-SHA1" (args !! "openid.assoc_type") in
  fresh External (estore st) ty = None ->
  processPost args st
  = (Ret (ERROR (dictToKV
            {["error" := VStr ("unable to create an association for type "
                               +:+ repr ty)]})),
     mkState (istore st) (estore st) (trace st ++ [OpGet External ty])
       (stdout st)).
Proof.
  intros Hmode ty Hfresh. rewrite processPost_associate by done.
  unfold catch_KeyError, _associate. run. fold ty. rewrite Hfresh.
  reflexivity.
Qed.

(** X12. An associate request with a session_type other than DH-SHA1 is
    refused with [session_type must be DH-SHA1], but only after the external
    store has issued the association: the refused request leaves a new
    association behind in the external store. *)
Theorem associate_bad_session_type (args : gmap string string)
    (s : string) (a : Association) (st : state) :
  args !! "openid.mode" = Some "associate" ->
  args !! "openid.session_type" = Some s -> s <> "" -> s <> "DH-SHA1" ->
  let ty := default "HMAC-SHA1" (args !! "openid.assoc_type") in
  fresh External (estore st) ty = Some a ->
  processPost args st
  = (Ret (ERROR (dictToKV {["error" := VStr "session_type must be DH-SHA1"]})),
     mkState (istore st) (<[handle a := entry_of a]> (estore st))
       (trace st ++ [OpGet External ty]) (stdout st)).
Proof.
  intros Hmode Hsess Hne Hdh ty Hfresh. rewrite processPost_associate by done.
  unfold catch_KeyError, _associate. run. fold ty. rewrite Hfresh, Hsess.
  simpl. rewrite (proj2 (truthy_Some s) Hne), bool_decide_false by done.
  reflexivity.
Qed.

(** X13. A DH-SHA1 associate request that lacks one of dh_modulus, dh_gen,
    dh_consumer_public is an error naming the first one missing, in that
    order; the association issued for it stays in the external store. *)
Theorem associate_dh_missing_parameter (args : gmap string string)
    (k : string) (a : Association) (st : state) :
  args !! "openid.mode" = Some "associate" ->
  args !! "openid.session_type" = Some "DH-SHA1" ->
  let ty := default "HMAC-SHA1" (args !! "openid.assoc_type") in
  fresh External (estore st) ty = Some a ->
  (k = "openid.dh_modulus" /\ args !! "openid.dh_modulus" = None) \/
  (k = "openid.dh_gen" /\ is_Some (args !! "openid.dh_modulus") /\
   args !! "openid.dh_gen" = None) \/
  (k = "openid.dh_consumer_public" /\ is_Some (args !! "openid.dh_modulus") /\
   is_Some (args !! "openid.dh_gen") /\
   args !! "openid.dh_consumer_public" = None) ->
  processPost args st
  = (Ret (ERROR (dictToKV
            {["error" := VStr ("Necessary openid argument (" +:+ repr k
                               +:+ ") missing.")]})),
     mkState (istore st) (<[handle a := entry_of a]> (estore st))
       (trace st ++ [OpGet External ty]) (stdout st)).
Proof.
  intros Hmode Hsess ty Hfresh Hmiss. rewrite processPost_associate by done.
  unfold catch_KeyError, _associate, associate_dh, getitem. run. fold ty.
  rewrite Hfresh, Hsess. simpl.
  destruct Hmiss as [[-> Hp] | [(-> & [p Hp] & Hg) | (-> & [p Hp] & [g Hg] & Hc)]];
    rewrite Hp; simpl; try reflexivity; rewrite Hg; simpl; try reflexivity.
  rewrite Hc. reflexivity.
Qed.

(** X14. A completed DH-SHA1 associate persists the issued association in
    the external store and writes one record to standard output: the reply
    and the masked MAC key. The reply's assoc_type is the constant
    HMAC-SHA1, whatever type was asked for and issued; handle and expires_in
    are the issued association's. *)
Theorem associate_dh_prints_mac_key (args : gmap string string)
    (p g c : string) (shared : Z) (a : Association) (st : state) :
  args !! "openid.mode" = Some "associate" ->
  args !! "openid.session_type" = Some "DH-SHA1" ->
  args !! "openid.dh_modulus" = Some p ->
  args !! "openid.dh_gen" = Some g ->
  args !! "openid.dh_consumer_public" = Some c ->
  let ty := default "HMAC-SHA1" (args !! "openid.assoc_type") in
  fresh External (estore st) ty = Some a ->
  decryptKeyExchange (fromBase64 p g) (base64ToLong c) = Ret shared ->
  let mac_key := strxor (secret a) (sha1 (longToBinary shared)) in
  exists reply : gmap string pyval,
    processPost args st
    = (Ret (OK (dictToKV reply)),
       mkState (istore st) (<[handle a := entry_of a]> (estore st))
         (trace st ++ [OpGet External ty])
         (stdout st ++ [(reply, mac_key)])) /\
    reply !! "assoc_type" = Some (VStr "HMAC-SHA1") /\
    reply !! "assoc_handle" = Some (VStr (handle a)) /\
    reply !! "expires_in" = Some (VInt (expiresIn a)) /\
    reply !! "enc_mac_key" = Some (VStr (toBase64 mac_key)).
Proof.
  intros Hmode Hsess Hp Hg Hc ty Hfresh Hshared mac_key.
  rewrite processPost_associate by done.
  unfold catch_KeyError, _associate, associate_dh, getitem. run. fold ty.
  rewrite Hfresh, Hsess, Hp, Hg, Hc. simpl. rewrite Hshared. simpl.
  eexists. split; [reflexivity|]. repeat split; by simplify_map_eq.
Qed.

(** X15. A check_authentication request without assoc_handle is an error
    naming that key, before any store is consulted. *)
Theorem check_without_handle (args : gmap string string) (st : state) :
  args !! "openid.mode" = Some "check_authentication" ->
  args !! "openid.assoc_handle" = None ->
  processPost args st
  = (Ret (ERROR (dictToKV
            {["error" := VStr ("Necessary openid argument ("
                               +:+ repr "openid.assoc_handle"
                               +:+ ") missing.")]})), st).
Proof.
  intros Hmode Hh. apply (processPost_KeyError _ _ _ _ _ Hmode).
  simpl. unfold _checkAuth, getitem. rewrite Hh. reflexivity.
Qed.

(** X16. A check_authentication request on a handle the internal store does
    not hold under HMAC-SHA1 is an error, [no secret found for <handle>];
    the request is not checked any further and both stores stay as they
    are. *)
Theorem check_unknown_handle (args : gmap string string) (h : string)
    (st : state) :
  args !! "openid.mode" = Some "check_authentication" ->
  args !! "openid.assoc_handle" = Some h ->
  lookup_assoc h "HMAC-SHA1" (istore st) = None ->
  processPost args st
  = (Ret (ERROR (dictToKV
            {["error" := VStr ("no secret found for " +:+ repr h)]})),
     mkState (istore st) (estore st)
       (trace st ++ [OpLookup Internal h "HMAC-SHA1"]) (stdout st)).
Proof.
  intros Hmode Hh Hlook. apply processPost_checkAuth; [done|].
  unfold _checkAuth, getitem. rewrite Hh. run. rewrite Hlook. reflexivity.
Qed.

(** X17. When the recomputed signature differs from the request's sig, the
    reply is is_valid=false and nothing else, an invalidate_handle in the
    request is ignored, and neither store changes: the association stays
    usable. *)
Theorem check_mismatch_keeps_association (args : gmap string string)
    (h s g sg v_sig : string) (a : Association) (st : state) :
  args !! "openid.mode" = Some "check_authentication" ->
  args !! "openid.assoc_handle" = Some h ->
  lookup_assoc h "HMAC-SHA1" (istore st) = Some a ->
  expiresIn a > 0 ->
  args !! "openid.signed" = Some s ->
  args !! "openid.sig" = Some g ->
  signReply (<["openid.mode" := "id_res"]> args) (secret a)
    (signed_fields_of s) = Ret (sg, v_sig) ->
  v_sig <> g ->
  processPost args st
  = (Ret (OK (dictToKV {["is_valid" := VStr "false"]})),
     mkState (istore st) (estore st)
       (trace st ++ [OpLookup Internal h "HMAC-SHA1"]) (stdout st)).
Proof.
  intros Hmode Hh Hlook Hlive Hs Hg Hsign Hne.
  apply processPost_checkAuth; [done|].
  unfold _checkAuth, getitem. rewrite Hh, Hs, Hg. run. rewrite Hlook. simpl.
  rewrite bool_decide_true by done. simpl. rewrite Hsign. simpl.
  rewrite bool_decide_false by done. reflexivity.
Qed.

(** X18. On an unexpired association, a request that lacks [openid.signed],
    or that has it but lacks [openid.sig], is an error naming the missing
    key; the sig is only missed after the signature has been recomputed.
    Neither store changes. *)
Theorem check_missing_signature_field (args : gmap string string)
    (h k : string) (a : Association) (st : state) :
  args !! "openid.mode" = Some "check_authentication" ->
  args !! "openid.assoc_handle" = Some h ->
  lookup_assoc h "HMAC-SHA1" (istore st) = Some a ->
  expiresIn a > 0 ->
  (k = "openid.signed" /\ args !! "openid.signed" = None) \/
  (k = "openid.sig" /\ args !! "openid.sig" = None /\
   exists s r, args !! "openid.signed" = Some s /\
               signReply (<["openid.mode" := "id_res"]> args) (secret a)
                 (signed_fields_of s) = Ret r) ->
  processPost args st
  = (Ret (ERROR (dictToKV
            {["error" := VStr ("Necessary openid argument (" +:+ repr k
                               +:+ ") missing.")]})),
     mkState (istore st) (estore st)
       (trace st ++ [OpLookup Internal h "HMAC-SHA1"]) (stdout st)).
Proof.
  intros Hmode Hh Hlook Hlive Hmiss.
  apply (processPost_KeyError _ _ _ _ _ Hmode). simpl.
  unfold _checkAuth, getitem. rewrite Hh. run. rewrite Hlook. simpl.
  rewrite bool_decide_true by done. simpl.
  destruct Hmiss as [[-> Hs] | (-> & Hg & s & [sg v] & Hs & Hsign)];
    rewrite Hs; simpl; [reflexivity|].
  rewrite Hsign. simpl. rewrite Hg. reflexivity.
Qed.

(** X19. When [signReply] raises [KeyError] (the signed list names a field
    the request does not carry), the answer is the error naming that key,
    not is_valid=false. Neither store changes. *)
Theorem check_signed_names_absent_field (args : gmap string string)
    (h s k : string) (a : Association) (st : state) :
  args !! "openid.mode" = Some "check_authentication" ->
  args !! "openid.assoc_handle" = Some h ->
  lookup_assoc h "HMAC-SHA1" (istore st) = Some a ->
  expiresIn a > 0 ->
  args !! "openid.signed" = Some s ->
  signReply (<["openid.mode" := "id_res"]> args) (secret a)
    (signed_fields_of s) = Raise (KeyError k) ->
  processPost args st
  = (Ret (ERROR (dictToKV
            {["error" := VStr ("Necessary openid argument (" +:+ repr k
                               +:+ ") missing.")]})),
     mkState (istore st) (estore st)
       (trace st ++ [OpLookup Internal h "HMAC-SHA1"]) (stdout st)).
Proof.
  intros Hmode Hh Hlook Hlive Hs Hsign.
  apply (processPost_KeyError _ _ _ _ _ Hmode). simpl.
  unfold _checkAuth, getitem. rewrite Hh, Hs. run. rewrite Hlook. simpl.
  rewrite bool_decide_true by done. simpl. rewrite Hsign. reflexivity.
Qed.

(** The run of [_checkAuth] on a matching signature. *)
Lemma checkAuth_match (args : gmap string string)
    (h s g sg : string) (a : Association) (st : state) :
  args !! "openid.assoc_handle" = Some h ->
  lookup_assoc h "HMAC-SHA1" (istore st) = Some a ->
  expiresIn a > 0 ->
  args !! "openid.signed" = Some s ->
  args !! "openid.sig" = Some g ->
  signReply (<["openid.mode" := "id_res"]> args) (secret a)
    (signed_fields_of s) = Ret (sg, g) ->
  let st1 := mkState (istore st) (delete h (estore st))
               (trace st ++ [OpLookup Internal h "HMAC-SHA1";
                             OpRemove External h]) (stdout st) in
  _checkAuth args st
  = match args !! "openid.invalidate_handle" with
    | Some ih =>
        if truthy (Some ih) then
          (Ret (OK (dictToKV
                  (match lookup_assoc ih "HMAC-SHA1" (delete h (estore st)) with
                   | None => {[ "is_valid" := VStr "true";
                                "invalidate_handle" := VStr ih ]}
                   | Some _ => {[ "is_valid" := VStr "true" ]}
                   end))),
           mkState (istore st) (delete h (estore st))
             (trace st1 ++ [OpLookup External ih "HMAC-SHA1"]) (stdout st))
        else (Ret (OK (dictToKV {[ "is_valid" := VStr "true" ]})), st1)
    | None => (Ret (OK (dictToKV {[ "is_valid" := VStr "true" ]})), st1)
    end.
Proof.
  intros Hh Hlook Hlive Hs Hg Hsign st1.
  unfold _checkAuth, getitem. rewrite Hh, Hs, Hg. run. rewrite Hlook. simpl.
  rewrite bool_decide_true by done. simpl. rewrite Hsign. simpl.
  rewrite bool_decide_true by done. simpl.
  subst st1.
  destruct (args !! "openid.invalidate_handle") as [ih|]; simpl.
  - destruct (truthy (Some ih)); simpl.
    + destruct (lookup_assoc ih "HMAC-SHA1" (delete h (estore st)));
        unfold log; simpl; rewrite <- !app_assoc; reflexivity.
    + unfold log; simpl. rewrite <- !app_assoc. reflexivity.
  - unfold log; simpl. rewrite <- !app_assoc. reflexivity.
Qed.

(** X20. On a matching signature, a non-empty invalidate_handle is echoed in
    the reply exactly when the external store, after the request's own
    handle has been removed from it, does not hold it under HMAC-SHA1. So a
    request whose invalidate_handle equals its assoc_handle always gets it
    echoed. *)
Theorem check_echoes_invalidate_handle (args : gmap string string)
    (h s g sg ih : string) (a : Association) (st : state) :
  args !! "openid.mode" = Some "check_authentication" ->
  args !! "openid.assoc_handle" = Some h ->
  lookup_assoc h "HMAC-SHA1" (istore st) = Some a ->
  expiresIn a > 0 ->
  args !! "openid.signed" = Some s ->
  args !! "openid.sig" = Some g ->
  signReply (<["openid.mode" := "id_res"]> args) (secret a)
    (signed_fields_of s) = Ret (sg, g) ->
  args !! "openid.invalidate_handle" = Some ih -> ih <> "" ->
  exists (reply : gmap string pyval) (st' : state),
    processPost args st = (Ret (OK (dictToKV reply)), st') /\
    reply !! "is_valid" = Some (VStr "true") /\
    (reply !! "invalidate_handle" = Some (VStr ih) <->
     lookup_assoc ih "HMAC-SHA1" (delete h (estore st)) = None) /\
    (reply !! "invalidate_handle" = None <->
     is_Some (lookup_assoc ih "HMAC-SHA1" (delete h (estore st)))) /\
    (ih = h -> reply !! "invalidate_handle" = Some (VStr ih)).
Proof.
  intros Hmode Hh Hlook Hlive Hs Hg Hsign Hih Hne.
  pose proof (checkAuth_match args h s g sg a st Hh Hlook Hlive Hs Hg Hsign)
    as Hrun.
  simpl in Hrun. rewrite Hih, (proj2 (truthy_Some ih) Hne) in Hrun.
  eexists _, _. split; [by apply processPost_checkAuth|].
  destruct (lookup_assoc ih "HMAC-SHA1" (delete h (estore st))) as [e|] eqn:He.
  - split; [by simplify_map_eq|]. split; [|split].
    + split; [by simplify_map_eq | done].
    + split; [by eauto | by simplify_map_eq].
    + intros ->. by rewrite lookup_assoc_delete in He.
  - split; [by simplify_map_eq|]. split; [|split].
    + split; [done | by simplify_map_eq].
    + split; [by simplify_map_eq | by intros [? ?]].
    + intros _. by simplify_map_eq.
Qed.

(** X21. What [processPost] may do to the internal store, on every request:
    nothing, or remove the request's own assoc_handle. It never adds an
    association to the internal store. *)
Theorem post_internal_store_only_shrinks (args : gmap string string)
    (st : state) :
  let st' := (processPost args st).2 in
  istore st' = istore st \/
  exists h, args !! "openid.assoc_handle" = Some h /\
            istore st' = delete h (istore st).
Proof.
  unfold processPost, catch_KeyError, getitem.
  destruct (args !! "openid.mode") as [m|]; [|by left]. run.
  case_bool_decide; [|case_bool_decide; [|by left]].
  - unfold _associate, associate_dh, getitem. run.
    destruct (fresh External (estore st) _) as [a|]; simpl; [|by left].
    destruct (args !! "openid.session_type") as [s|]; simpl; [|by left].
    destruct (truthy (Some s)); simpl; [|by left].
    case_bool_decide; simpl; [|by left].
    repeat (match goal with
            | |- context [args !! ?k] => destruct (args !! k); simpl
            end; [|by left]).
    destruct (decryptKeyExchange _ _) as [shared|e]; simpl;
      [by left | by destruct e; left].
  - unfold _checkAuth, getitem. run.
    destruct (args !! "openid.assoc_handle") as [h|] eqn:Hh; simpl; [|by left].
    destruct (lookup_assoc h "HMAC-SHA1" (istore st)) as [a|]; simpl;
      [|by left].
    case_bool_decide; simpl; [|right; by eauto].
    destruct (args !! "openid.signed") as [s|]; simpl; [|by left].
    destruct (signReply _ _ _) as [[sg v]|e]; simpl; [|by destruct e; left].
    destruct (args !! "openid.sig") as [g|]; simpl; [|by left].
    case_bool_decide; simpl; [|by left].
    destruct (args !! "openid.invalidate_handle") as [ih|]; simpl; [|by left].
    destruct (truthy (Some ih)); simpl; [|by left].
    by destruct (lookup_assoc ih "HMAC-SHA1" _); left.
Qed.

End ProcessPostPaths.

(** ** The two entry points together, and the parsing of the signed list *)

Section RoundTrip.
Context {SB : StoreBackend} {TR : trustroot} {OU : oidutil}
        {CU : cryptutil} {PB : builtins}.
Variable url : string.

(** X22. Dumb mode, end to end. Let [signReply] read, of the dictionary it
    is given, the listed fields only, and let the signed list it returns for
    the fixed fields parse back to them. Then the fields of the redirect
    that [processGet] issues under a freshly issued, live HMAC-SHA1
    association of the internal store, sent back with mode
    check_authentication, are answered is_valid=true and nothing else. *)
Theorem dumb_mode_round_trip (args : gmap string string)
    (identity return_to : string) (a : Association) (sg sig : string)
    (st : state) :
  valid_request args identity return_to ->
  truthy (args !! "openid.assoc_handle") = false ->
  fresh Internal (istore st) "HMAC-SHA1" = Some a ->
  assoc_type a = "HMAC-SHA1" ->
  expiresIn a > 0 ->
  (forall (d d' : gmap string string) (k : string) (fs : list string),
      (forall f, f ∈ fs -> d !! ("openid." +:+ f) = d' !! ("openid." +:+ f)) ->
      signReply d k fs = signReply d' k fs) ->
  signReply
    (<["openid.assoc_handle" := handle a]>
       {[ "openid.mode" := "id_res";
          "openid.return_to" := return_to;
          "openid.identity" := identity ]})
    (secret a) _signed_fields = Ret (sg, sig) ->
  signed_fields_of sg = _signed_fields ->
  exists (reply : gmap string string) (st' st'' : state),
    processGet url true args st
    = (Ret (REDIRECT (appendArgs return_to reply)), st') /\
    processPost (<["openid.mode" := "check_authentication"]> reply) st'
    = (Ret (OK (dictToKV {["is_valid" := VStr "true"]})), st'').
Proof.
  intros (Hid & Hrt & tr & Htr & Hv) Hdumb Hfresh Hty Hlive Hlocal Hsign Hparse.
  set (reply := ({[ "openid.signed" := sg;
                    "openid.sig" := sig;
                    "openid.assoc_handle" := handle a;
                    "openid.mode" := "id_res";
                    "openid.return_to" := return_to;
                    "openid.identity" := identity ]} : gmap string string)).
  set (st' := mkState (<[handle a := entry_of a]> (istore st)) (estore st)
                (trace st ++ [OpGet Internal "HMAC-SHA1"]) (stdout st)).
  assert (processGet url true args st
          = (Ret (REDIRECT (appendArgs return_to reply)), st')) as Hget.
  { unfold processGet, resolve_assoc. rewrite Hid, Htr, Hrt, Hv. simpl.
    destruct (args !! "openid.assoc_handle") as [h|]; [rewrite Hdumb|];
      run; rewrite Hfresh; simpl; rewrite Hsign; reflexivity. }
  set (args2 := <["openid.mode" := "check_authentication"]> reply).
  assert (lookup_assoc (handle a) "HMAC-SHA1" (istore st') = Some a) as Hlook.
  { unfold lookup_assoc. simpl. rewrite lookup_insert_eq. simpl.
    rewrite bool_decide_true by done. by destruct a. }
  assert (signReply (<["openid.mode" := "id_res"]> args2) (secret a)
            (signed_fields_of sg) = Ret (sg, sig)) as Hsign2.
  { rewrite Hparse, <- Hsign. apply Hlocal. intros f Hf.
    unfold _signed_fields in Hf. subst args2 reply.
    repeat (apply elem_of_cons in Hf as [-> | Hf]; [by simplify_map_eq|]).
    by apply elem_of_nil in Hf. }
  pose proof (checkAuth_match args2 (handle a) sg sig sg a st') as Hcheck.
  simpl in Hcheck.
  assert (args2 !! "openid.invalidate_handle" = None) as Hinv
    by (subst args2 reply; by simplify_map_eq).
  rewrite Hinv in Hcheck.
  eexists reply, st', _. split; [exact Hget|].
  apply processPost_checkAuth; [subst args2; by simplify_map_eq|].
  apply Hcheck; try done; subst args2 reply; by simplify_map_eq.
Qed.

(** X23. The field list taken from [openid.signed] is never empty: a signed
    field that is empty or all whitespace yields the one field with the
    empty name, so the signature is then asked over the key [openid.] and
    not over nothing. *)
Theorem blank_signed_names_one_field (s : string) :
  signed_fields_of s <> [] /\
  (forallb is_space (list_ascii_of_string s) = true ->
   signed_fields_of s = [""]).
Proof.
  split; [apply split_not_nil|].
  intros Hblank. unfold signed_fields_of, strip.
  assert (lstrip s = "") as ->; [|reflexivity].
  induction s as [|c s IH]; [done|]. simpl in *.
  apply andb_prop in Hblank as [Hc Hs]. rewrite Hc. by apply IH.
Qed.

End RoundTrip.

(** ** The server run on concrete requests *)

Section Examples.
Import Reference.

Lemma validation_error_outcome_witness :
  exists msg out,
    validation_failure stray_request msg /\
    processGet server_url true stray_request empty_state
    = (Ret out, empty_state) /\
    (forall return_to,
        stray_request !! "openid.return_to" = Some return_to ->
        return_to <> "" ->
        out = REDIRECT (appendArgs return_to
                 {[ "openid.mode" := "error"; "openid.error" := msg ]})) /\
    (stray_request !! "openid.return_to" = None \/
     stray_request !! "openid.return_to" = Some "" -> out = ERROR msg).
Proof.
  apply (validation_error_outcome server_url true stray_request empty_state).
  right. right. right.
  exists "https://rp.example/", "https://elsewhere.example/cb".
  repeat split; reflexivity.
Defined.

Lemma valid_auth_request (mode : string) :
  valid_request (auth_request mode)
    "https://id.example/u" "https://rp.example/cb".
Proof.
  split; [reflexivity|]. split; [reflexivity|].
  exists "https://rp.example/". split; reflexivity.
Defined.

Lemma checkid_immediate_redirect_witness :
  auth_request "checkid_immediate" !! "openid.mode"
  = Some "checkid_immediate" /\
  exists nargs : gmap string string,
    processGet server_url false (auth_request "checkid_immediate") empty_state
    = (Ret (REDIRECT (appendArgs server_url nargs)), empty_state) /\
    nargs !! "openid.mode" = Some "checkid_setup" /\
    (forall k, k <> "openid.mode" ->
               nargs !! k = auth_request "checkid_immediate" !! k) /\
    dom nargs = dom (auth_request "checkid_immediate").
Proof.
  split; [reflexivity|].
  apply (checkid_immediate_redirect server_url
           (auth_request "checkid_immediate")
           "https://id.example/u" "https://rp.example/cb" empty_state).
  - apply valid_auth_request.
  - reflexivity.
Defined.

Lemma stale_handle_falls_back_witness :
  lookup_assoc "ext-7" "HMAC-SHA1" (estore stale_state)
  = Some (mkAssociation "ext-7" key "HMAC-SHA1" 0) /\
  exists (reply : gmap string string) (st' : state),
    processGet server_url true stale_request stale_state
    = (Ret (REDIRECT (appendArgs "https://rp.example/cb" reply)), st') /\
    reply !! "openid.invalidate_handle" = Some "ext-7" /\
    reply !! "openid.assoc_handle" = Some "int-0" /\
    reply !! "openid.signed" = Some "mode,identity,return_to" /\
    estore st' !! "ext-7" = None.
Proof.
  split; [reflexivity|].
  destruct (stale_handle_falls_back server_url stale_request
              "https://id.example/u" "https://rp.example/cb" "ext-7"
              (mkAssociation "int-0" key "HMAC-SHA1" 3600)
              "mode,identity,return_to"
              (key +:+ "/mode:id_res" +:+ nl
               +:+ "identity:https://id.example/u" +:+ nl
               +:+ "return_to:https://rp.example/cb" +:+ nl)
              stale_state)
    as (reply & st' & Hrun & Hinv & Hh & Hsg & _ & _ & _ & Hrm).
  - split; [reflexivity|]. split; [reflexivity|].
    exists "https://rp.example/". split; reflexivity.
  - reflexivity.
  - discriminate.
  - intros e He. vm_compute in He. injection He as <-. simpl. lia.
  - reflexivity.
  - vm_compute. reflexivity.
  - exists reply, st'. repeat split; try assumption.
    apply Hrm. eexists. reflexivity.
Defined.

(** C6, as stated, fails on the request that carries the empty string as
    assoc_handle: the external store does not hold it, yet it is not looked
    up there and the reply carries no invalidate_handle; the request is
    answered as if it named no handle. *)
Lemma empty_handle_is_not_invalidated :
  Requests.empty_handle_request !! "openid.assoc_handle" = Some "" /\
  lookup_assoc "" "HMAC-SHA1" (estore empty_state) = None /\
  exists (reply : gmap string string) (st' : state),
    processGet server_url true Requests.empty_handle_request empty_state
    = (Ret (REDIRECT (appendArgs "https://rp.example/cb" reply)), st') /\
    reply !! "openid.invalidate_handle" = None /\
    reply !! "openid.assoc_handle" = Some "int-0" /\
    trace st' = [OpGet Internal "HMAC-SHA1"].
Proof.
  split; [reflexivity|]. split; [reflexivity|].
  exists {[ "openid.signed" := "mode,identity,return_to";
            "openid.sig" := Requests.auth_sig;
            "openid.assoc_handle" := "int-0";
            "openid.mode" := "id_res";
            "openid.return_to" := "https://rp.example/cb";
            "openid.identity" := "https://id.example/u" ]},
         (mkState {[ "int-0" := mkEntry key "HMAC-SHA1" 3600 ]} ∅
            [OpGet Internal "HMAC-SHA1"] []).
  split; [vm_compute; reflexivity|]. repeat split; reflexivity.
Qed.

Lemma expired_check_removes_handle_witness :
  lookup_assoc "int-0" "HMAC-SHA1" (istore expired_state)
  = Some (mkAssociation "int-0" key "HMAC-SHA1" 0) /\
  exists st' st'' : state,
    processPost (check_request "mode") expired_state
    = (Ret (OK (dictToKV {["is_valid" := VStr "false"]})), st') /\
    istore st' = delete "int-0" (istore expired_state) /\
    istore st' !! "int-0" = None /\
    estore st' = estore expired_state /\
    processPost (check_request "mode") st'
    = (Ret (ERROR (dictToKV
              {["error" := VStr ("no secret found for " +:+ repr "int-0")]})),
       st'') /\
    istore st'' = istore st' /\
    estore st'' = estore st'.
Proof.
  split; [reflexivity|].
  apply (expired_check_removes_handle (check_request "mode") "int-0"
           (mkAssociation "int-0" key "HMAC-SHA1" 0) expired_state).
  - reflexivity.
  - reflexivity.
  - reflexivity.
  - simpl. lia.
Defined.

Lemma valid_check_is_replayable_witness :
  exists (reply reply2 : gmap string pyval) (st' st'' : state),
    processPost (check_request "mode") live_state
    = (Ret (OK (dictToKV reply)), st') /\
    reply !! "is_valid" = Some (VStr "true") /\
    istore st' = istore live_state /\
    estore st' = delete "int-0" (estore live_state) /\
    processPost (check_request "mode") st'
    = (Ret (OK (dictToKV reply2)), st'') /\
    reply2 !! "is_valid" = Some (VStr "true").
Proof.
  apply (valid_check_is_replayable (check_request "mode") "int-0" "mode"
           (key +:+ "/mode:id_res" +:+ nl) "mode"
           (mkAssociation "int-0" key "HMAC-SHA1" 3600) live_state).
  - reflexivity.
  - reflexivity.
  - reflexivity.
  - simpl. lia.
  - reflexivity.
  - reflexivity.
  - vm_compute. reflexivity.
Defined.

Lemma check_recomputes_over_request_fields_witness :
  split comma (strip " mode") = ["mode"] /\
  exists (reply : gmap string pyval) (st' : state),
    processPost (check_request " mode") live_state
    = (Ret (OK (dictToKV reply)), st') /\
    (key +:+ "/mode:id_res" +:+ nl = key +:+ "/mode:id_res" +:+ nl ->
     reply !! "is_valid" = Some (VStr "true")) /\
    (key +:+ "/mode:id_res" +:+ nl <> key +:+ "/mode:id_res" +:+ nl ->
     reply !! "is_valid" = Some (VStr "false")).
Proof.
  split; [reflexivity|].
  apply (check_recomputes_over_request_fields (check_request " mode")
           "int-0" " mode" (key +:+ "/mode:id_res" +:+ nl) "mode"
           (key +:+ "/mode:id_res" +:+ nl)
           (mkAssociation "int-0" key "HMAC-SHA1" 3600) live_state).
  - reflexivity.
  - reflexivity.
  - reflexivity.
  - simpl. lia.
  - reflexivity.
  - reflexivity.
  - vm_compute. reflexivity.
Defined.

(** C4, as stated, fails on the request whose signed list is [" mode"]:
    the list got by splitting it at commas is [[" mode"]], and no signature
    over that list equals the request's sig (the request has no field of
    that name), yet the server answers is_valid=true, having signed the
    list [["mode"]]. *)
Lemma check_fields_not_plain_comma_split :
  split comma " mode" = [" mode"] /\
  signed_fields_of " mode" = ["mode"] /\
  (forall sg,
      signReply (<["openid.mode" := "id_res"]> (check_request " mode")) key
        (split comma " mode")
      <> Ret (sg, key +:+ "/mode:id_res" +:+ nl)) /\
  check_request " mode" !! "openid.sig" = Some (key +:+ "/mode:id_res" +:+ nl) /\
  (processPost (check_request " mode") live_state).1
  = Ret (OK (dictToKV {["is_valid" := VStr "true"]})).
Proof.
  split; [reflexivity|]. split; [reflexivity|]. split; [|split].
  - intros sg. vm_compute. discriminate.
  - reflexivity.
  - vm_compute. reflexivity.
Qed.

Lemma associate_without_session_escapes_witness :
  (processPost associate_request empty_state).1
  = Raise (UnboundLocalError "mac_key") /\
  forall (out : outcome) (st' : state),
    processPost associate_request empty_state <> (Ret out, st').
Proof.
  apply (associate_without_session_escapes associate_request
           (mkAssociation "ext-0" key "HMAC-SHA1" 3600) empty_state).
  - reflexivity.
  - reflexivity.
  - reflexivity.
Defined.

Lemma associate_plain_reply_is_lost_witness :
  _associate associate_request empty_state
  = (Raise (UnboundLocalError "mac_key"),
     mkState ∅ {[ "ext-0" := mkEntry key "HMAC-SHA1" 3600 ]}
       [OpGet External "HMAC-SHA1"] []).
Proof.
  rewrite (associate_plain_reply_is_lost associate_request
             (mkAssociation "ext-0" key "HMAC-SHA1" 3600) empty_state).
  - reflexivity.
  - reflexivity.
  - reflexivity.
Defined.


End Examples.

(** ** More runs on concrete requests *)

Section MoreExamples.
Import Reference Requests.

Lemma checkid_setup_needs_approval_witness :
  processGet server_url false (auth_request "checkid_setup") empty_state
  = (Ret (DO_AUTH (appendArgs server_url (auth_request "checkid_setup"))
            (appendArgs "https://rp.example/cb"
               {["openid.mode" := "cancel"]})), empty_state).
Proof.
  etrans.
  - apply (checkid_setup_needs_approval server_url
           (auth_request "checkid_setup")
           "https://id.example/u" "https://rp.example/cb" empty_state).
    + apply valid_auth_request.
    + reflexivity.
  - vm_compute. reflexivity.
Defined.

Lemma unauthorized_mode_not_understood_witness :
  processGet server_url false (auth_request "login") empty_state
  = (Ret (REDIRECT (appendArgs "https://rp.example/cb"
            {[ "openid.mode" := "error";
               "openid.error" := "open.mode ('login') not understood" ]})),
     empty_state).
Proof.
  etrans.
  - apply (unauthorized_mode_not_understood server_url (auth_request "login")
             "https://id.example/u" "https://rp.example/cb" empty_state).
    + apply valid_auth_request.
    + discriminate.
    + discriminate.
  - vm_compute. reflexivity.
Defined.

Lemma authorized_reads_four_fields_witness :
  processGet server_url true (auth_request "checkid_setup") empty_state
  = processGet server_url true (auth_request "no such mode") empty_state.
Proof.
  apply (authorized_reads_four_fields server_url
           (auth_request "checkid_setup") (auth_request "no such mode")
           empty_state); reflexivity.
Defined.

Lemma dumb_mode_reply_witness :
  processGet server_url true (auth_request "checkid_setup") empty_state
  = (Ret (REDIRECT (appendArgs "https://rp.example/cb"
            {[ "openid.signed" := "mode,identity,return_to";
               "openid.sig" := auth_sig;
               "openid.assoc_handle" := "int-0";
               "openid.mode" := "id_res";
               "openid.return_to" := "https://rp.example/cb";
               "openid.identity" := "https://id.example/u" ]})),
     mkState {[ "int-0" := mkEntry key "HMAC-SHA1" 3600 ]} ∅
       [OpGet Internal "HMAC-SHA1"] []).
Proof.
  etrans.
  - apply (dumb_mode_reply server_url (auth_request "checkid_setup")
           "https://id.example/u" "https://rp.example/cb"
           (mkAssociation "int-0" key "HMAC-SHA1" 3600)
           "mode,identity,return_to" auth_sig empty_state).
    + apply valid_auth_request.
    + reflexivity.
    + reflexivity.
    + vm_compute. reflexivity.
  - vm_compute. reflexivity.
Defined.

Lemma smart_mode_reply_witness :
  processGet server_url true stale_request smart_state
  = (Ret (REDIRECT (appendArgs "https://rp.example/cb"
            {[ "openid.signed" := "mode,identity,return_to";
               "openid.sig" := auth_sig;
               "openid.assoc_handle" := "ext-7";
               "openid.mode" := "id_res";
               "openid.return_to" := "https://rp.example/cb";
               "openid.identity" := "https://id.example/u" ]})),
     mkState ∅ {[ "ext-7" := mkEntry key "HMAC-SHA1" 3600 ]}
       [OpLookup External "ext-7" "HMAC-SHA1"] []).
Proof.
  etrans.
  - apply (smart_mode_reply server_url stale_request
           "https://id.example/u" "https://rp.example/cb" "ext-7"
           (mkAssociation "ext-7" key "HMAC-SHA1" 3600)
           "mode,identity,return_to" auth_sig smart_state).
    + split; [reflexivity|]. split; [reflexivity|].
      exists "https://rp.example/". split; reflexivity.
    + reflexivity.
    + discriminate.
    + reflexivity.
    + reflexivity.
    + vm_compute. reflexivity.
  - vm_compute. reflexivity.
Defined.

Lemma authorized_without_issue_raises_witness :
  lookup_assoc "ext-7" "HMAC-SHA1" (estore stale_state)
  = Some (mkAssociation "ext-7" key "HMAC-SHA1" 0) /\
  (@processGet closed_store tr oid crypt py server_url true
     stale_request stale_state).1 = Raise (AttributeError "handle") /\
  estore (@processGet closed_store tr oid crypt py server_url true
            stale_request stale_state).2 = delete "ext-7" (estore stale_state).
Proof.
  split; [reflexivity|].
  destruct (@authorized_without_issue_raises closed_store tr oid crypt py
              server_url stale_request
              "https://id.example/u" "https://rp.example/cb" stale_state)
    as (Hraise & _ & _ & _ & Hremoved).
  - split; [reflexivity|]. split; [reflexivity|].
    exists "https://rp.example/". split; reflexivity.
  - intros h a Hh _ Hlook. vm_compute in Hh. injection Hh as <-.
    vm_compute in Hlook. injection Hlook as <-. simpl. lia.
  - reflexivity.
  - split; [exact Hraise|].
    apply (Hremoved "ext-7"); [reflexivity | discriminate |].
    eexists. reflexivity.
Defined.

Lemma post_without_mode_witness :
  processPost ∅ empty_state
  = (Ret (ERROR (dictToKV
            {["error" := VStr ("Necessary openid argument ("
                               +:+ repr "openid.mode" +:+ ") missing.")]})),
     empty_state).
Proof.
  etrans.
  - apply (post_without_mode ∅ empty_state).
    reflexivity.
  - vm_compute. reflexivity.
Defined.

Lemma post_unrecognized_mode_witness :
  processPost {["openid.mode" := "login"]} empty_state
  = (Ret (ERROR (dictToKV
            {["error" := VStr "Unrecognized openid.mode ('login')"]})),
     empty_state).
Proof.
  etrans.
  - apply (post_unrecognized_mode {["openid.mode" := "login"]} "login"
           empty_state).
    + reflexivity.
    + discriminate.
    + discriminate.
  - vm_compute. reflexivity.
Defined.

Lemma associate_unsupported_type_witness :
  processPost (typed_associate "HMAC-SHA256") empty_state
  = (Ret (ERROR (dictToKV
            {["error" := VStr "unable to create an association for type 'HMAC-SHA256'"]})),
     mkState ∅ ∅ [OpGet External "HMAC-SHA256"] []).
Proof.
  etrans.
  - apply (associate_unsupported_type (typed_associate "HMAC-SHA256")
           empty_state).
    + reflexivity.
    + reflexivity.
  - vm_compute. reflexivity.
Defined.

Lemma associate_bad_session_type_witness :
  processPost (session_associate "plain") empty_state
  = (Ret (ERROR (dictToKV {["error" := VStr "session_type must be DH-SHA1"]})),
     mkState ∅ {[ "ext-0" := mkEntry key "HMAC-SHA1" 3600 ]}
       [OpGet External "HMAC-SHA1"] []).
Proof.
  etrans.
  - apply (associate_bad_session_type (session_associate "plain") "plain"
           (mkAssociation "ext-0" key "HMAC-SHA1" 3600) empty_state).
    + reflexivity.
    + reflexivity.
    + discriminate.
    + discriminate.
    + reflexivity.
  - vm_compute. reflexivity.
Defined.

Lemma associate_dh_missing_parameter_witness :
  processPost dh_without_gen empty_state
  = (Ret (ERROR (dictToKV
            {["error" := VStr "Necessary openid argument ('openid.dh_gen') missing."]})),
     mkState ∅ {[ "ext-0" := mkEntry key "HMAC-SHA1" 3600 ]}
       [OpGet External "HMAC-SHA1"] []).
Proof.
  etrans.
  - apply (associate_dh_missing_parameter dh_without_gen "openid.dh_gen"
           (mkAssociation "ext-0" key "HMAC-SHA1" 3600) empty_state).
    + reflexivity.
    + reflexivity.
    + reflexivity.
    + right. left. split; [reflexivity|]. split; [|reflexivity].
      exists "23". reflexivity.
  - vm_compute. reflexivity.
Defined.

Lemma associate_dh_prints_mac_key_witness :
  exists (reply : gmap string pyval) (st' : state),
    processPost (dh_request "9") empty_state = (Ret (OK (dictToKV reply)), st') /\
    estore st' = {[ "ext-0" := mkEntry key "HMAC-SHA1" 3600 ]} /\
    stdout st' = [(reply, key +:+ "^16")] /\
    reply !! "assoc_type" = Some (VStr "HMAC-SHA1") /\
    reply !! "assoc_handle" = Some (VStr "ext-0") /\
    reply !! "expires_in" = Some (VInt 3600).
Proof.
  destruct (associate_dh_prints_mac_key (dh_request "9") "23" "5" "9" 16
              (mkAssociation "ext-0" key "HMAC-SHA1" 3600) empty_state)
    as (reply & Hrun & Hty & Hh & Hexp & _); try reflexivity.
  eexists reply, _. split; [exact Hrun|].
  split; [vm_compute; reflexivity|]. split; [vm_compute; reflexivity|].
  split; [exact Hty|]. split; [exact Hh | exact Hexp].
Defined.

Lemma check_without_handle_witness :
  processPost {["openid.mode" := "check_authentication"]} live_state
  = (Ret (ERROR (dictToKV
            {["error" := VStr "Necessary openid argument ('openid.assoc_handle') missing."]})),
     live_state).
Proof.
  etrans.
  - apply (check_without_handle {["openid.mode" := "check_authentication"]}
           live_state); reflexivity.
  - vm_compute. reflexivity.
Defined.

Lemma check_unknown_handle_witness :
  processPost (check_request "mode") empty_state
  = (Ret (ERROR (dictToKV {["error" := VStr "no secret found for 'int-0'"]})),
     mkState ∅ ∅ [OpLookup Internal "int-0" "HMAC-SHA1"] []).
Proof.
  etrans.
  - apply (check_unknown_handle (check_request "mode") "int-0" empty_state); reflexivity.
  - vm_compute. reflexivity.
Defined.

Lemma check_mismatch_keeps_association_witness :
  processPost forged_check live_state
  = (Ret (OK (dictToKV {["is_valid" := VStr "false"]})),
     mkState {[ "int-0" := mkEntry key "HMAC-SHA1" 3600 ]} ∅
       [OpLookup Internal "int-0" "HMAC-SHA1"] []).
Proof.
  etrans.
  - apply (check_mismatch_keeps_association forged_check "int-0" "mode"
           "forged" "mode" (key +:+ "/mode:id_res" +:+ nl)
           (mkAssociation "int-0" key "HMAC-SHA1" 3600) live_state).
    + reflexivity.
    + reflexivity.
    + reflexivity.
    + simpl. lia.
    + reflexivity.
    + reflexivity.
    + vm_compute. reflexivity.
    + discriminate.
  - vm_compute. reflexivity.
Defined.

Lemma check_missing_signature_field_witness :
  processPost unsigned_check live_state
  = (Ret (ERROR (dictToKV
            {["error" := VStr "Necessary openid argument ('openid.sig') missing."]})),
     mkState {[ "int-0" := mkEntry key "HMAC-SHA1" 3600 ]} ∅
       [OpLookup Internal "int-0" "HMAC-SHA1"] []).
Proof.
  etrans.
  - apply (check_missing_signature_field unsigned_check "int-0" "openid.sig"
           (mkAssociation "int-0" key "HMAC-SHA1" 3600) live_state).
    + reflexivity.
    + reflexivity.
    + reflexivity.
    + simpl. lia.
    + right. split; [reflexivity|]. split; [reflexivity|].
      exists "mode", ("mode", key +:+ "/mode:id_res" +:+ nl).
      split; [reflexivity|]. vm_compute. reflexivity.
  - vm_compute. reflexivity.
Defined.

Lemma check_signed_names_absent_field_witness :
  processPost (check_request "mode,identity") live_state
  = (Ret (ERROR (dictToKV
            {["error" := VStr "Necessary openid argument ('openid.identity') missing."]})),
     mkState {[ "int-0" := mkEntry key "HMAC-SHA1" 3600 ]} ∅
       [OpLookup Internal "int-0" "HMAC-SHA1"] []).
Proof.
  etrans.
  - apply (check_signed_names_absent_field (check_request "mode,identity")
           "int-0" "mode,identity" "openid.identity"
           (mkAssociation "int-0" key "HMAC-SHA1" 3600) live_state).
    + reflexivity.
    + reflexivity.
    + reflexivity.
    + simpl. lia.
    + reflexivity.
    + vm_compute. reflexivity.
  - vm_compute. reflexivity.
Defined.

Lemma check_echoes_invalidate_handle_witness :
  exists (reply : gmap string pyval) (st' : state),
    processPost echo_check live_state = (Ret (OK (dictToKV reply)), st') /\
    reply !! "is_valid" = Some (VStr "true") /\
    reply !! "invalidate_handle" = Some (VStr "int-0").
Proof.
  destruct (check_echoes_invalidate_handle echo_check "int-0" "mode"
              (key +:+ "/mode:id_res" +:+ nl) "mode" "int-0"
              (mkAssociation "int-0" key "HMAC-SHA1" 3600) live_state)
    as (reply & st' & Hrun & Hvalid & _ & _ & Hecho).
  - reflexivity.
  - reflexivity.
  - reflexivity.
  - simpl. lia.
  - reflexivity.
  - reflexivity.
  - vm_compute. reflexivity.
  - reflexivity.
  - discriminate.
  - exists reply, st'. split; [exact Hrun|]. split; [exact Hvalid|].
    apply Hecho. reflexivity.
Defined.

(** The reference [signReply] reads the listed fields only. *)
Lemma tokens_local (d d' : gmap string string) (fs : list string) :
  (forall f, f ∈ fs -> d !! ("openid." +:+ f) = d' !! ("openid." +:+ f)) ->
  tokens d fs = tokens d' fs.
Proof.
  induction fs as [|f fs IH]; intros Hagree; [done|].
  cbn [tokens]. rewrite (Hagree f) by left.
  rewrite IH; [done|]. intros f' Hf'. apply Hagree. by right.
Qed.

Lemma dumb_mode_round_trip_witness :
  exists (reply : gmap string string) (st' st'' : state),
    processGet server_url true (auth_request "checkid_setup") empty_state
    = (Ret (REDIRECT (appendArgs "https://rp.example/cb" reply)), st') /\
    processPost (<["openid.mode" := "check_authentication"]> reply) st'
    = (Ret (OK (dictToKV {["is_valid" := VStr "true"]})), st'').
Proof.
  apply (dumb_mode_round_trip server_url (auth_request "checkid_setup")
           "https://id.example/u" "https://rp.example/cb"
           (mkAssociation "int-0" key "HMAC-SHA1" 3600)
           "mode,identity,return_to" auth_sig empty_state).
  - apply valid_auth_request.
  - reflexivity.
  - reflexivity.
  - reflexivity.
  - simpl. lia.
  - intros d d' k fs Hagree. cbn [signReply crypt].
    by rewrite (tokens_local d d' fs Hagree).
  - vm_compute. reflexivity.
  - reflexivity.
Defined.


Lemma blank_signed_names_one_field_witness :
  signed_fields_of "  " = [""].
Proof.
  apply (blank_signed_names_one_field "  "). reflexivity.
Defined.

End MoreExamples.
